(** * grid_display.py: decoding the secret message

    A shallow embedding of [src/grid_display.py] (class
    [DecodeSecretMessage] and [Main]) together with the parts of the
    Python runtime and of the libraries it calls ([str], [int],
    [urllib.parse], [requests], [bs4], [pandas]) that its behaviour
    depends on, followed by the properties of the program.

    Conventions.
    - A Python [str] is the list of its Unicode code points.
    - A raised exception is a value of [exn]; a computation that may raise
      returns [exn + A].
    - Standard output is the list of the strings passed to [print], one
      entry per call, oldest first.
    - Python integers are unbounded ([Z]); the scalars pandas hands back
      are [numpy.int64], whose arithmetic wraps around; memory is
      unbounded. *)

From Stdlib Require Import ZArith NArith List String Ascii Lia Bool.
From Stdlib Require DecimalString.
From stdpp Require Import list.
Import ListNotations.

Local Open Scope Z_scope.

(* ================================================================= *)
(** ** Python strings *)

Module Py.

(** A [str]: its code points. *)
Abbreviation str := (list N).

(** A literal of the source, written with ASCII characters. *)
Definition lit (s : string) : str :=
  List.map N_of_ascii (list_ascii_of_string s).

(** [Py_UNICODE_ISSPACE]: the characters [str.isspace] and [str.strip]
    treat as whitespace (bidirectional type WS, B or S, or category Zs). *)
Definition is_whitespace (c : N) : bool :=
  (((0x09 <=? c) && (c <=? 0x0D)) || ((0x1C <=? c) && (c <=? 0x20))
   || (c =? 0x85) || (c =? 0xA0) || (c =? 0x1680)
   || ((0x2000 <=? c) && (c <=? 0x200A))
   || (c =? 0x2028) || (c =? 0x2029) || (c =? 0x202F) || (c =? 0x205F)
   || (c =? 0x3000))%N.

(** [s.isspace()]: at least one character, and all of them whitespace. *)
Definition isspace (s : str) : bool :=
  match s with
  | [] => false
  | _ => forallb is_whitespace s
  end.

Fixpoint lstrip_with (p : N -> bool) (s : str) : str :=
  match s with
  | [] => []
  | c :: s' => if p c then lstrip_with p s' else s
  end.

Definition rstrip_with (p : N -> bool) (s : str) : str :=
  rev (lstrip_with p (rev s)).

(** [s.strip()]. *)
Definition strip (s : str) : str :=
  rstrip_with is_whitespace (lstrip_with is_whitespace s).

(** [sep.join(l)] for the empty separator, the only one the program uses. *)
Definition join (l : list str) : str := concat l.

(** What the interpreter takes from the Unicode database and from the
    [ipaddress] and [unicodedata] modules, which the program reaches only
    through [int] and [urlparse].  The development is parametric in them:
    - [unicode_decimal c] is the decimal digit value of a non-ASCII code
      point [c] of category Nd, if it is one;
    - [nfkc s] is [unicodedata.normalize('NFKC', s)];
    - [bracketed_host_error h] is the message of the [ValueError] that
      [urllib.parse._check_bracketed_host h] raises, if it raises. *)
Record Library := {
  unicode_decimal : N -> option N;
  nfkc : str -> str;
  bracketed_host_error : str -> option str
}.

(** A runtime whose tables are empty outside ASCII: no further decimal
    digits, normalisation is the identity, every bracketed host is refused. *)
Definition ascii_library : Library := {|
  unicode_decimal := fun _ => None;
  nfkc := fun s => s;
  bracketed_host_error := fun _ => Some (lit "invalid bracketed host")
|}.

Section Int.
Variable L : Library.

(** [Py_UNICODE_TODECIMAL]. *)
Definition decimal (c : N) : option Z :=
  if (c <? 128)%N then
    if ((48 <=? c) && (c <=? 57))%N then Some (Z.of_N (c - 48)) else None
  else option_map Z.of_N (unicode_decimal L c).

(** The whitespace [int] skips at both ends: non-ASCII spaces are first
    turned into [' '], ASCII characters are tested with [Py_ISSPACE]. *)
Definition int_space (c : N) : bool :=
  if (c <? 128)%N then (((9 <=? c) && (c <=? 13)) || (c =? 32))%N
  else is_whitespace c.

(** The digits after the first one: a single underscore may stand
    between two digits.  Returns the value and the number of digits. *)
Fixpoint digits_loop (s : str) (acc : Z) (n : nat) : option (Z * nat) :=
  match s with
  | [] => Some (acc, n)
  | c :: s' =>
      if (c =? 95)%N then
        match s' with
        | d :: s'' =>
            match decimal d with
            | Some v => digits_loop s'' (10 * acc + v) (S n)
            | None => None
            end
        | [] => None
        end
      else
        match decimal c with
        | Some v => digits_loop s' (10 * acc + v) (S n)
        | None => None
        end
  end.

(** [sys.get_int_max_str_digits()], at its default. *)
Definition int_max_str_digits : nat := 4300.

(** [int(s)] for a [str] [s]: [None] stands for [ValueError] (the
    program never looks at its message). *)
Definition int (s : str) : option Z :=
  let t := rstrip_with int_space (lstrip_with int_space s) in
  let '(sign, body) :=
    match t with
    | 45%N :: b => (-1, b)
    | 43%N :: b => (1, b)
    | _ => (1, t)
    end in
  match body with
  | d :: rest =>
      match decimal d with
      | Some v =>
          match digits_loop rest v 1 with
          | Some (z, n) =>
              if (int_max_str_digits <? n)%nat then None else Some (sign * z)
          | None => None
          end
      | None => None
      end
  | [] => None
  end.
End Int.

(** [str(n)] for an integer. *)
Definition str_of_int (z : Z) : str :=
  lit (DecimalString.NilZero.string_of_int (Z.to_int z)).

(** Exceptions, each with the text [str(e)] gives. *)
Inductive exn :=
| TypeError (msg : str)
| ValueError (msg : str)
| IndexError (msg : str).

Definition exn_str (e : exn) : str :=
  match e with
  | TypeError m | ValueError m | IndexError m => m
  end.

(** The values [DecodeSecretMessage(url)] may be given. *)
Inductive value :=
| VNone
| VBool (b : bool)
| VInt (z : Z)
| VBytes (b : list N)
| VStr (s : str).

(** [l[i]] on a list of length [n]: the position read or written, with
    negative indices counted from the end; [None] is [IndexError]. *)
Definition index (n : nat) (i : Z) : option nat :=
  if (0 <=? i) && (i <? Z.of_nat n) then Some (Z.to_nat i)
  else if (- Z.of_nat n <=? i) && (i <? 0) then Some (Z.to_nat (Z.of_nat n + i))
  else None.

(** Numbers as pandas hands them to the program: the maximum of a
    column of integers is a [numpy.int64], the one of an empty column the
    float [nan]. *)
Inductive number := Int (z : Z) | NaN.

(** The largest [numpy.int64], 2**63 - 1. *)
Definition int64_max : Z := 9223372036854775807.

(** The value of a [numpy.int64] after an operation whose exact result is
    [z]: results outside -2**63 .. 2**63 - 1 wrap around. *)
Definition wrap_int64 (z : Z) : Z :=
  (z + 9223372036854775808) mod 18446744073709551616 - 9223372036854775808.

Arguments wrap_int64 : simpl never.

(** [a + 1]: on a [numpy.int64] the sum wraps, so that
    [int64_max + 1] is -2**63; [nan + 1] is [nan]. *)
Definition add1 (a : number) : number :=
  match a with Int z => Int (wrap_int64 (z + 1)) | NaN => NaN end.

(** [len(range(n))]; a float is refused. *)
Definition range_len (a : number) : exn + nat :=
  match a with
  | Int z => inr (Z.to_nat z)
  | NaN => inl (TypeError (lit "'float' object cannot be interpreted as an integer"))
  end.

(** [list(range(start, -1, -1))]: [start], [start - 1], ..., [0]. *)
Definition range_down (start : Z) : list Z :=
  List.map (fun k => start - Z.of_nat k) (seq 0 (Z.to_nat (start + 1))).

End Py.

(* ================================================================= *)
(** ** urllib.parse *)

Module urllib.
Import Py.

(** The two components of [urlparse(url)] the program reads.  [urlparse]
    takes them from [urlsplit] unchanged (CPython 3.12). *)
Record ParseResult := { scheme : str; netloc : str }.

Definition mem (c : N) (s : str) : bool := existsb (N.eqb c) s.

(** [s.find(c)] for a one-character [c]. *)
Fixpoint find (c : N) (s : str) : option nat :=
  match s with
  | [] => None
  | d :: s' => if (c =? d)%N then Some O else option_map S (find c s')
  end.

Definition remove (p : N -> bool) (s : str) : str :=
  List.filter (fun c => negb (p c)) s.

(** [_WHATWG_C0_CONTROL_OR_SPACE]. *)
Definition c0_control_or_space (c : N) : bool := (c <=? 0x20)%N.

(** [_UNSAFE_URL_BYTES_TO_REMOVE]: tab, carriage return, line feed. *)
Definition unsafe_byte (c : N) : bool := ((c =? 9) || (c =? 13) || (c =? 10))%N.

Definition ascii_upper (c : N) : bool := ((65 <=? c) && (c <=? 90))%N.
Definition ascii_lower (c : N) : bool := ((97 <=? c) && (c <=? 122))%N.
Definition ascii_digit (c : N) : bool := ((48 <=? c) && (c <=? 57))%N.
Definition ascii_alpha (c : N) : bool := ascii_upper c || ascii_lower c.

(** [scheme_chars]: letters, digits, and the characters + - and dot. *)
Definition scheme_char (c : N) : bool :=
  (ascii_alpha c || ascii_digit c || (c =? 43) || (c =? 45) || (c =? 46))%N.

Definition lower (c : N) : N := if ascii_upper c then (c + 32)%N else c.

(** [_splitnetloc(url, 2)]: after the two slashes, up to the first of
    the delimiters of path, query and fragment. *)
Definition netloc_delim (c : N) : bool := ((c =? 47) || (c =? 63) || (c =? 35))%N.

Fixpoint take_until (p : N -> bool) (s : str) : str :=
  match s with
  | [] => []
  | c :: s' => if p c then [] else c :: take_until p s'
  end.

(** [s.partition(c)[2]] and [s.partition(c)[0]]. *)
Fixpoint after_first (c : N) (s : str) : str :=
  match s with
  | [] => []
  | d :: s' => if (c =? d)%N then s' else after_first c s'
  end.

Definition before_first (c : N) (s : str) : str := take_until (N.eqb c) s.

Section Parse.
Variable L : Library.

(** [_checknetloc]: the message of the [ValueError] it raises, if any. *)
Definition checknetloc (netloc : str) : option str :=
  match netloc with
  | [] => None
  | _ =>
      if forallb (fun c => c <? 128)%N netloc then None
      else
        let n := remove (fun c => (c =? 64) || (c =? 58) || (c =? 35) || (c =? 63))%N netloc in
        let netloc2 := nfkc L n in
        if decide (n = netloc2) then None
        else if existsb (fun c => mem c netloc2) (lit "/?#@:") then
          Some (lit "netloc '" ++ netloc
                ++ lit "' contains invalid characters under NFKC normalization")
        else None
  end.

(** The checks [urlsplit] makes on brackets in the network location. *)
Definition check_brackets (netloc : str) : option str :=
  let lb := mem 91 netloc in
  let rb := mem 93 netloc in
  if (lb && negb rb) || (rb && negb lb) then Some (lit "Invalid IPv6 URL")
  else if lb && rb then
    bracketed_host_error L (before_first 93 (after_first 91 netloc))
  else None.

(** [urlparse(url)], as far as [scheme] and [netloc] go. *)
Definition urlparse (url : str) : exn + ParseResult :=
  let url := lstrip_with c0_control_or_space url in
  let url := remove unsafe_byte url in
  let '(scheme, url) :=
    match find 58 url, url with
    | Some (S i), c0 :: _ =>
        if (c0 <? 128)%N && ascii_alpha c0 && forallb scheme_char (take (S i) url)
        then (List.map lower (take (S i) url), drop (S (S i)) url)
        else ([], url)
    | _, _ => ([], url)
    end in
  match url with
  | a :: b :: rest =>
      if ((a =? 47) && (b =? 47))%N then
        let netloc := take_until netloc_delim rest in
        match check_brackets netloc with
        | Some msg => inl (ValueError msg)
        | None =>
            match checknetloc netloc with
            | Some msg => inl (ValueError msg)
            | None => inr {| scheme := scheme; netloc := netloc |}
            end
        end
      else inr {| scheme := scheme; netloc := [] |}
  | _ => inr {| scheme := scheme; netloc := [] |}
  end.
End Parse.

End urllib.

(* ================================================================= *)
(** ** bs4, requests, pandas *)

Module bs4.
Import Py.

(** The markup of a response is modelled by what
    [BeautifulSoup(text, 'html.parser')] finds in it: its [table]
    elements in document order, each by the rows [find_all('tr')]
    returns, each row by the [.text] of the cells [find_all('td')]
    returns. *)
Abbreviation Row := (list str).
Abbreviation Table := (list Row).
Abbreviation Soup := (list Table).

(** [soup.find('table')]: the first table, or [None]. *)
Definition find_table (soup : Soup) : option Table := head soup.

End bs4.

Module requests.
Import Py.

Record Response := {
  status_code : Z;
  reason : str;
  url : str;
  text : bs4.Soup
}.

(** [Response.raise_for_status]: the message of the [HTTPError] it
    raises, which it does for the 4xx and 5xx codes only. *)
Definition raise_for_status (r : Response) : option str :=
  if (400 <=? status_code r) && (status_code r <? 500) then
    Some (str_of_int (status_code r) ++ lit " Client Error: " ++ reason r
          ++ lit " for url: " ++ url r)
  else if (500 <=? status_code r) && (status_code r <? 600) then
    Some (str_of_int (status_code r) ++ lit " Server Error: " ++ reason r
          ++ lit " for url: " ++ url r)
  else None.

(** [Response.ok], which is also the truth value of a response. *)
Definition ok (r : Response) : bool :=
  match raise_for_status r with Some _ => false | None => true end.

(** What [requests.get(url)] does: it raises a [RequestException] (no
    connection, timeout, ...) or returns a response. *)
Inductive outcome :=
| Raises (msg : str)
| Returns (r : Response).

(** The network: the outcome of a GET of each URL. *)
Definition Network := str -> outcome.

End requests.

Module pandas.
Import Py.

(** The frame [pd.DataFrame(grid_data, columns=["x", "y", "char"])]:
    its rows in order. The columns x and y are [int64] columns (the
    dtype pandas gives to integers between -2**63 and 2**63 - 1). *)
Abbreviation DataFrame := (list (Z * Z * str)).

Definition col_x (df : DataFrame) : list Z := List.map (fun t => fst (fst t)) df.
Definition col_y (df : DataFrame) : list Z := List.map (fun t => snd (fst t)) df.

(** [Series.max()]: [nan] on an empty column. *)
Definition max (col : list Z) : number :=
  match col with
  | [] => NaN
  | a :: rest => Int (fold_left Z.max rest a)
  end.

End pandas.

(* ================================================================= *)
(** ** The program *)

Import Py.

(** What the process does to the outside: the lines it printed, and the
    URLs it sent a GET for. *)
Record World := {
  stdout : list str;
  requested : list str
}.

(** An instance of the class: its attributes. *)
Record DecodeSecretMessage := {
  _url : str;
  response : option requests.Response;
  grid : option pandas.DataFrame
}.

Record State := {
  self : DecodeSecretMessage;
  world : World
}.

(** A method body: it reads and writes the instance and the world, and
    returns or raises. *)
Definition M (A : Type) : Type := State -> (exn + A) * State.

#[global] Instance M_ret : MRet M := fun A a st => (inr a, st).

#[global] Instance M_bind : MBind M := fun A B f m st =>
  match m st with
  | (inr a, st') => f a st'
  | (inl e, st') => (inl e, st')
  end.

Definition raise {A} (e : exn) : M A := fun st => (inl e, st).

(** A computation that may raise, run inside a method. *)
Definition lift {A} (r : exn + A) : M A := fun st => (r, st).

Definition get_self : M DecodeSecretMessage := fun st => (inr (self st), st).

Definition print (line : str) : M unit := fun st =>
  (inr tt,
   {| self := self st;
      world := {| stdout := stdout (world st) ++ [line];
                  requested := requested (world st) |} |}).

Definition set_response (r : requests.Response) : M unit := fun st =>
  (inr tt,
   {| self := {| _url := _url (self st); response := Some r; grid := grid (self st) |};
      world := world st |}).

Definition set_grid (df : pandas.DataFrame) : M unit := fun st =>
  (inr tt,
   {| self := {| _url := _url (self st); response := response (self st); grid := Some df |};
      world := world st |}).

(** The messages of the source. *)
Definition msg_not_str : str := lit "URL must be a string".
Definition msg_empty : str := lit "URL cannot be empty".
Definition msg_invalid : str := lit "Invalid URL. Please provide a valid Google Doc URL.".
Definition msg_no_response : str := lit "No response found.".
Definition msg_no_table : str := lit "No table found in the document.".
Definition msg_row_error : str := lit "Error in parsing coordinates or character data.".
Definition msg_no_data : str := lit "No data to display.".
Definition msg_access : str :=
  lit "Failed to access the URL. Please check the URL and make sure it is public.".
Definition msg_hint : str :=
  lit "This might be due to a private or incorrect URL. Ensure the document is publicly accessible.".
Definition msg_unexpected : str :=
  lit "An unexpected error occurred while processing the document.".

(** The grid of [display_grid]: rows of cells, each cell a [str]. *)
Abbreviation Grid := (list (list str)).

Section Program.
Variable L : Library.
Variable net : requests.Network.

(** The setter of the property [url]: the value stored, or the
    exception raised. *)
Definition url_setter (url : value) : exn + str :=
  match url with
  | VStr s =>
      if isspace s then inl (ValueError msg_empty)
      else
        match urllib.urlparse L s with
        | inl e => inl e
        | inr parsed_url =>
            if negb (bool_decide (urllib.scheme parsed_url = lit "https"))
               || negb (bool_decide (urllib.netloc parsed_url = lit "docs.google.com"))
            then inl (ValueError msg_invalid)
            else inr s
        end
  | _ => inl (TypeError msg_not_str)
  end.

Definition __init__ (url : value) : exn + DecodeSecretMessage :=
  match url_setter url with
  | inl e => inl e
  | inr s => inr {| _url := s; response := None; grid := None |}
  end.

(** [requests.get(self.url)]: the request goes out, then the network
    answers. *)
Definition requests_get (u : str) : M requests.outcome := fun st =>
  (inr (net u),
   {| self := self st;
      world := {| stdout := stdout (world st);
                  requested := requested (world st) ++ [u] |} |}).

Definition verify_public_url : M bool :=
  me ← get_self;
  got ← requests_get (_url me);
  match got with
  | requests.Raises e =>
      print (lit "Error accessing the URL: " ++ e);; mret false
  | requests.Returns r =>
      set_response r;;
      match requests.raise_for_status r with
      | Some e => print (lit "Error accessing the URL: " ++ e);; mret false
      | None => mret true
      end
  end.

(** The body of the loop of [get_data] over one row; [grid_data] is
    the list built so far. *)
Definition get_data_row (grid_data : pandas.DataFrame) (cells : bs4.Row)
  : M pandas.DataFrame :=
  match cells with
  | c0 :: c1 :: c2 :: _ =>
      match int L (strip c0) with
      | None => print msg_row_error;; mret grid_data
      | Some x =>
          match int L (strip c2) with
          | None => print msg_row_error;; mret grid_data
          | Some y => mret (grid_data ++ [(x, y, strip c1)])
          end
      end
  | _ => mret grid_data
  end.

Fixpoint get_data_rows (rows : bs4.Table) (grid_data : pandas.DataFrame)
  : M pandas.DataFrame :=
  match rows with
  | [] => mret grid_data
  | row :: rest =>
      grid_data' ← get_data_row grid_data row;
      get_data_rows rest grid_data'
  end.

Definition get_data : M unit :=
  me ← get_self;
  match response me with
  | None => print msg_no_response
  | Some r =>
      if negb (requests.ok r) then print msg_no_response
      else
        match bs4.find_table (requests.text r) with
        | None => print msg_no_table
        | Some table =>
            grid_data ← get_data_rows (tail table) [];
            set_grid grid_data
        end
  end.

(** [[[" " for _ in range(max_x + 1)] for _ in range(max_y + 1)]]. *)
Definition new_grid (max_x max_y : number) : exn + Grid :=
  match range_len (add1 max_y) with
  | inl e => inl e
  | inr O => inr []
  | inr rows =>
      match range_len (add1 max_x) with
      | inl e => inl e
      | inr cols => inr (replicate rows (replicate cols (lit " ")))
      end
  end.

(** [grid[y][x] = char]. *)
Definition set_cell (g : Grid) (x y : Z) (char : str) : exn + Grid :=
  match index (length g) y with
  | None => inl (IndexError (lit "list index out of range"))
  | Some i =>
      match g !! i with
      | None => inl (IndexError (lit "list index out of range"))
      | Some row =>
          match index (length row) x with
          | None => inl (IndexError (lit "list assignment index out of range"))
          | Some j => inr (<[i := <[j := char]> row]> g)
          end
      end
  end.

(** The loop over [self.grid.iterrows()]. *)
Fixpoint fill_grid (g : Grid) (df : pandas.DataFrame) : exn + Grid :=
  match df with
  | [] => inr g
  | (x, y, char) :: rest =>
      match set_cell g x y char with
      | inl e => inl e
      | inr g' => fill_grid g' rest
      end
  end.

(** [print("".join(grid[y]))]. *)
Definition print_row (g : Grid) (y : Z) : M unit :=
  match index (length g) y with
  | None => raise (IndexError (lit "list index out of range"))
  | Some i =>
      match g !! i with
      | None => raise (IndexError (lit "list index out of range"))
      | Some row => print (join row)
      end
  end.

Fixpoint print_rows (g : Grid) (ys : list Z) : M unit :=
  match ys with
  | [] => mret tt
  | y :: rest => print_row g y;; print_rows g rest
  end.

Definition display_grid : M unit :=
  me ← get_self;
  match grid me with None => get_data | Some _ => mret tt end;;
  me ← get_self;
  match grid me with
  | None => print msg_no_data
  | Some df =>
      let max_x := pandas.max (pandas.col_x df) in
      let max_y := pandas.max (pandas.col_y df) in
      g ← lift (new_grid max_x max_y);
      g ← lift (fill_grid g df);
      match max_y with
      | Int top => print_rows g (range_down top)
      | NaN => raise (TypeError (lit "'float' object cannot be interpreted as an integer"))
      end
  end.

(** The [try] block of [Main]. *)
Definition Main_try : M unit :=
  accessible ← verify_public_url;
  (if negb accessible then raise (ValueError msg_access) else mret tt);;
  get_data;;
  display_grid.

Definition print_to (w : World) (lines : list str) : World :=
  {| stdout := stdout w ++ lines; requested := requested w |}.

(** [Main], for the URL it is given: [inl e] is an exception that
    leaves [Main], [inr tt] its normal end. *)
Definition Main_with (url : value) (w : World) : (exn + unit) * World :=
  match __init__ url with
  | inl e => (inl e, w)
  | inr decode_message =>
      match Main_try {| self := decode_message; world := w |} with
      | (inr tt, st) => (inr tt, world st)
      | (inl (ValueError e), st) =>
          (inr tt, print_to (world st) [lit "Error: " ++ e; msg_hint])
      | (inl e, st) =>
          (inr tt, print_to (world st) [msg_unexpected; lit "Details: " ++ exn_str e])
      end
  end.

(** The URL written in [Main]. *)
Definition test_url : str :=
  lit "https://docs.google.com/document/d/e/2PACX-1vQGUck9HIFCyezsrBSnmENk5ieJuYwpt7YHYEzeNJkIb9OSDdx-ov2nRNReKQyey-cwJOoEKUhLmN9z/pub".

Definition Main : World -> (exn + unit) * World := Main_with (VStr test_url).

End Program.

(* ================================================================= *)
(** ** The specification, in its own words *)

(** The definitions of this part follow the specification, not the code:
    the properties below compare the program with them. *)

(** The triples of a frame have coordinates that are not negative, as the
    data model asks of a Coordinate. *)
Definition nonneg (df : pandas.DataFrame) : Prop :=
  Forall (fun t => 0 <= fst (fst t) /\ 0 <= snd (fst t)) df.

(** The coordinates of a frame are below the largest [numpy.int64], so
    that one more than any of them is still a [numpy.int64]. *)
Definition below_int64_max (df : pandas.DataFrame) : Prop :=
  Forall (fun t => fst (fst t) < int64_max /\ snd (fst t) < int64_max) df.

(** The largest coordinate seen, the smallest possible one being 0. *)
Definition max_coord (col : list Z) : Z := fold_right Z.max 0 col.

(** The character of the last triple of [df] at the coordinate (x, y). *)
Fixpoint last_at (df : pandas.DataFrame) (x y : Z) : option str :=
  match df with
  | [] => None
  | (x', y', c) :: rest =>
      match last_at rest x y with
      | Some c' => Some c'
      | None => if (x' =? x) && (y' =? y) then Some c else None
      end
  end.

(** What the specification puts at (x, y): the character that was
    written there last, a space where none was. *)
Definition cell_at (df : pandas.DataFrame) (x y : Z) : str :=
  default (lit " ") (last_at df x y).

(** The lines of the rendering: rows from the largest y down to 0, each
    the characters of its columns from x = 0 up to the largest x. *)
Definition rendering (df : pandas.DataFrame) : list str :=
  List.map
    (fun y => join (List.map (fun x => cell_at df x y)
                      (seqZ 0 (max_coord (pandas.col_x df) + 1))))
    (rev (seqZ 0 (max_coord (pandas.col_y df) + 1))).

(** What the specification says of one data row: with at least three
    cells, cell 1 is x, cell 2 the character and cell 3 is y, each
    trimmed; the row gives a triple when both coordinates are integers. *)
Definition row_triple (L : Library) (cells : bs4.Row) : option (Z * Z * str) :=
  match cells with
  | cell1 :: cell2 :: cell3 :: _ =>
      match int L (strip cell1), int L (strip cell3) with
      | Some x, Some y => Some (x, y, strip cell2)
      | _, _ => None
      end
  | _ => None
  end.

(** A row with at least three cells one of whose coordinates is not an
    integer. *)
Definition bad_coordinate (L : Library) (cells : bs4.Row) : bool :=
  match cells with
  | cell1 :: _ :: cell3 :: _ =>
      match int L (strip cell1), int L (strip cell3) with
      | Some _, Some _ => false
      | _, _ => true
      end
  | _ => false
  end.

(** The triples of the rows that parse, in the order of the rows. *)
Fixpoint parsed_triples (L : Library) (rows : bs4.Table) : pandas.DataFrame :=
  match rows with
  | [] => []
  | row :: rest =>
      match row_triple L row with
      | Some t => t :: parsed_triples L rest
      | None => parsed_triples L rest
      end
  end.

(** One diagnostic for each row with a coordinate that is not an integer. *)
Definition diagnostics (L : Library) (rows : bs4.Table) : list str :=
  List.map (fun _ => msg_row_error) (List.filter (bad_coordinate L) rows).

(** The URL uses the secure scheme. *)
Definition uses_https (L : Library) (s : str) : Prop :=
  exists p, urllib.urlparse L s = inr p /\ urllib.scheme p = lit "https".

(** The URL targets the host of the documents. *)
Definition targets_document_host (L : Library) (s : str) : Prop :=
  exists p, urllib.urlparse L s = inr p /\ urllib.netloc p = lit "docs.google.com".

(** The inputs the specification has the validator refuse. *)
Definition invalid_input (L : Library) (v : value) : Prop :=
  match v with
  | VStr s =>
      s = [] \/ isspace s = true \/ ~ uses_https L s \/ ~ targets_document_host L s
  | _ => True
  end.

(** The two kinds of exception that stand for InvalidInput. *)
Definition is_invalid_input_error (e : exn) : Prop :=
  exists msg, e = TypeError msg \/ e = ValueError msg.

(** The success statuses of the specification: 200, or any 2xx. *)
Definition success_status (code : Z) : bool := (200 <=? code) && (code <? 300).

(* ================================================================= *)
(** ** Reading grids and states *)

(** The cell of a grid at row [i], column [j]. *)
Definition get_cell (g : Grid) (i j : nat) : option str :=
  match g !! i with
  | Some row => row !! j
  | None => None
  end.

(** A grid of [h] rows of [w] cells each. *)
Definition rect (h w : nat) (g : Grid) : Prop :=
  length g = h /\ Forall (fun row => length row = w) g.

(** The state after some more lines were printed. *)
Definition emit (st : State) (lines : list str) : State :=
  {| self := self st; world := print_to (world st) lines |}.

(** The instance after [self.response = r]. *)
Definition with_response (me : DecodeSecretMessage) (r : requests.Response)
  : DecodeSecretMessage :=
  {| _url := _url me; response := Some r; grid := grid me |}.

(** The instance after [self.grid = df]. *)
Definition with_grid (me : DecodeSecretMessage) (df : pandas.DataFrame)
  : DecodeSecretMessage :=
  {| _url := _url me; response := response me; grid := Some df |}.

(** A row with fewer than three cells. *)
Definition short_row (cells : bs4.Row) : bool := (length cells <? 3)%nat.

(** The coordinates of the triples of a frame, in order. *)
Definition coords (df : pandas.DataFrame) : list (Z * Z) := List.map fst df.

(** The instance has no response it can use: none at all, or one whose
    truth value is false. *)
Definition no_usable_response (me : DecodeSecretMessage) : Prop :=
  response me = None \/ exists r, response me = Some r /\ requests.ok r = false.

(* ================================================================= *)
(** ** Scenarios *)

(** A world in which nothing has happened yet. *)
Definition quiet : World := {| stdout := []; requested := [] |}.

(** The frame of the round-trip scenario of the specification. *)
Definition scenario_df : pandas.DataFrame :=
  [(0, 0, lit "A"); (1, 0, lit "B"); (0, 1, lit "C")].




(** An instance that holds the frame of the scenario. *)
Definition scenario_instance : DecodeSecretMessage :=
  {| _url := test_url; response := None; grid := Some scenario_df |}.


(** A response whose markup holds one table: a header row, two rows that
    parse, one whose x is not a number, and a last one that parses. *)
Definition scenario_table : bs4.Table :=
  [ [lit "x-coordinate"; lit "Character"; lit "y-coordinate"];
    [lit "0"; lit "A"; lit "0"];
    [lit " 1"; lit "B "; lit "0"];
    [lit "one"; lit "Z"; lit "0"];
    [lit "0"; lit "C"; lit "1"] ].

Definition scenario_response : requests.Response :=
  {| requests.status_code := 200;
     requests.reason := lit "OK";
     requests.url := test_url;
     requests.text := [scenario_table] |}.

(** A response with a success status whose markup holds no table. *)
Definition tableless_response : requests.Response :=
  {| requests.status_code := 200;
     requests.reason := lit "OK";
     requests.url := test_url;
     requests.text := [] |}.

(** A network that is down. *)
Definition no_network : requests.Network :=
  fun _ => requests.Raises (lit "Connection refused").

(** The fetch-failure scenario: the URL returns 404. *)
Definition not_found : requests.Network := fun u =>
  requests.Returns {| requests.status_code := 404;
                      requests.reason := lit "Not Found";
                      requests.url := u;
                      requests.text := [scenario_table] |}.

(** A response with the status 300, which is not a success status, and
    the markup of the scenario. *)
Definition multiple_choices : requests.Network := fun u =>
  requests.Returns {| requests.status_code := 300;
                      requests.reason := lit "Multiple Choices";
                      requests.url := u;
                      requests.text := [scenario_table] |}.

(* ================================================================= *)
(** ** The grid: allocation and filling *)

Section GridFacts.

Lemma index_in_range (n : nat) (i : Z) :
  0 <= i < Z.of_nat n -> index n i = Some (Z.to_nat i).
Proof.
  intros [H0 H1]. unfold index.
  apply Z.leb_le in H0. apply Z.ltb_lt in H1.
  now rewrite H0, H1.
Qed.

Lemma fold_max_max_coord (l : list Z) (a : Z) :
  0 <= a -> fold_left Z.max l a = Z.max a (max_coord l).
Proof.
  revert a. induction l as [|b l IH]; intros a Ha; simpl.
  - lia.
  - rewrite IH by lia. unfold max_coord. lia.
Qed.

(** On a frame with a row and no negative coordinate, pandas' maximum
    is the largest coordinate seen. *)
Lemma pandas_max_nonneg (col : list Z) :
  col <> [] -> Forall (fun z => 0 <= z) col ->
  pandas.max col = Int (max_coord col).
Proof.
  destruct col as [|a rest]; [congruence|]. intros _ Hcol.
  inversion Hcol; subst. simpl. f_equal.
  now apply fold_max_max_coord.
Qed.

Lemma max_coord_ge (col : list Z) :
  0 <= max_coord col /\ Forall (fun z => z <= max_coord col) col.
Proof.
  induction col as [|a col [IH0 IH]]; simpl.
  - split; [lia | constructor].
  - split; [lia|]. constructor; [lia|].
    eapply Forall_impl; [exact IH|]. simpl. intros; lia.
Qed.

Lemma nonneg_cols (df : pandas.DataFrame) :
  nonneg df ->
  Forall (fun z => 0 <= z) (pandas.col_x df) /\
  Forall (fun z => 0 <= z) (pandas.col_y df).
Proof.
  induction 1 as [|t df [Hx Hy] _ [IHx IHy]]; simpl.
  - split; constructor.
  - split; constructor; assumption.
Qed.

(** Every triple of a frame without negative coordinates lies inside
    the grid of [max_coord + 1] columns and rows. *)
Lemma nonneg_in_bounds (df : pandas.DataFrame) :
  nonneg df ->
  Forall (fun t =>
            0 <= fst (fst t) < max_coord (pandas.col_x df) + 1 /\
            0 <= snd (fst t) < max_coord (pandas.col_y df) + 1) df.
Proof.
  intros Hnn.
  destruct (max_coord_ge (pandas.col_x df)) as [_ Hx].
  destruct (max_coord_ge (pandas.col_y df)) as [_ Hy].
  unfold pandas.col_x, pandas.col_y in Hx, Hy.
  rewrite Forall_map in Hx, Hy.
  unfold nonneg in Hnn.
  rewrite Forall_forall in *. intros t Ht.
  specialize (Hnn t Ht). specialize (Hx t Ht). specialize (Hy t Ht).
  simpl in *. fold (pandas.col_x df) in Hx. fold (pandas.col_y df) in Hy. lia.
Qed.

Lemma get_cell_set (g : Grid) (i j i' j' : nat) (row : list str) (c : str) :
  g !! i = Some row -> (j < length row)%nat ->
  get_cell (<[i := <[j := c]> row]> g) i' j' =
    if decide (i = i' /\ j = j') then Some c else get_cell g i' j'.
Proof.
  intros Hrow Hj. unfold get_cell.
  assert (Hi : (i < length g)%nat) by (eapply lookup_lt_Some; eauto).
  destruct (decide (i = i')) as [->|Hne].
  - rewrite list_lookup_insert_eq by exact Hi.
    rewrite Hrow.
    destruct (decide (j = j')) as [->|Hne'].
    + rewrite list_lookup_insert_eq by assumption.
      destruct (decide _) as [_|[]]; auto.
    + rewrite list_lookup_insert_ne by assumption.
      destruct (decide _) as [[_ ?]|_]; [contradiction | reflexivity].
  - rewrite list_lookup_insert_ne by assumption.
    destruct (decide _) as [[? _]|_]; [contradiction | reflexivity].
Qed.

Lemma rect_set (h w : nat) (g : Grid) (i j : nat) (row : list str) (c : str) :
  rect h w g -> g !! i = Some row ->
  rect h w (<[i := <[j := c]> row]> g).
Proof.
  intros [Hlen Hrows] Hrow. split.
  - now rewrite length_insert.
  - apply Forall_insert; [assumption|].
    rewrite length_insert.
    rewrite Forall_forall in Hrows. apply Hrows.
    eapply list_elem_of_lookup_2; eauto.
Qed.

(** Inside the grid, [grid[y][x] = char] writes the cell of row [y],
    column [x], and raises nothing. *)
Lemma set_cell_in_range (h w : nat) (g : Grid) (x y : Z) (c : str) :
  rect h w g -> 0 <= x < Z.of_nat w -> 0 <= y < Z.of_nat h ->
  exists row,
    g !! Z.to_nat y = Some row /\ (Z.to_nat x < length row)%nat /\
    set_cell g x y c = inr (<[Z.to_nat y := <[Z.to_nat x := c]> row]> g).
Proof.
  intros [Hlen Hrows] Hx Hy.
  destruct (lookup_lt_is_Some_2 g (Z.to_nat y)) as [row Hrow]; [lia|].
  assert (Hw : length row = w).
  { rewrite Forall_forall in Hrows. apply Hrows.
    eapply list_elem_of_lookup_2; eauto. }
  exists row. split; [assumption|]. split; [lia|].
  unfold set_cell.
  rewrite index_in_range by lia. rewrite Hrow.
  rewrite index_in_range by lia. reflexivity.
Qed.

(** The loop of [display_grid] on a frame whose triples all lie inside
    the grid: it raises nothing, keeps the shape of the grid, and leaves
    in each cell the character written there last. *)
Lemma fill_grid_spec (h w : nat) (df : pandas.DataFrame) : forall g : Grid,
  rect h w g ->
  Forall (fun t => 0 <= fst (fst t) < Z.of_nat w /\
                   0 <= snd (fst t) < Z.of_nat h) df ->
  exists g',
    fill_grid g df = inr g' /\ rect h w g' /\
    forall i j,
      get_cell g' i j =
        match last_at df (Z.of_nat j) (Z.of_nat i) with
        | Some c => Some c
        | None => get_cell g i j
        end.
Proof.
  induction df as [|[[x y] c] rest IH]; intros g Hrect Hin.
  - exists g. simpl. auto.
  - inversion Hin as [|? ? [Hx Hy] Hrest]; subst. simpl in Hx, Hy.
    destruct (set_cell_in_range h w g x y c Hrect Hx Hy)
      as (row & Hrow & Hj & Hset).
    destruct (IH _ (rect_set h w g _ (Z.to_nat x) row c Hrect Hrow) Hrest)
      as (g' & Hfill & Hrect' & Hcells).
    exists g'. simpl. rewrite Hset. split; [assumption|].
    split; [assumption|].
    intros i j. rewrite Hcells.
    destruct (last_at rest (Z.of_nat j) (Z.of_nat i)); [reflexivity|].
    rewrite (get_cell_set g _ _ i j row c Hrow Hj).
    destruct (decide _) as [[Hi' Hj']|Hne].
    + subst i j. rewrite !Z2Nat.id by lia. now rewrite !Z.eqb_refl.
    + destruct (x =? Z.of_nat j) eqn:Ex; [|reflexivity].
      destruct (y =? Z.of_nat i) eqn:Ey; [|reflexivity].
      apply Z.eqb_eq in Ex, Ey. exfalso. apply Hne. lia.
Qed.

(** A [numpy.int64] result that fits is exact. *)
Lemma wrap_int64_exact (z : Z) :
  - int64_max - 1 <= z <= int64_max -> wrap_int64 z = z.
Proof.
  unfold wrap_int64, int64_max. intros H.
  rewrite Z.mod_small by lia. lia.
Qed.


Lemma new_grid_nonneg (mx my : Z) :
  0 <= mx < int64_max -> 0 <= my < int64_max ->
  new_grid (Int mx) (Int my) =
    inr (replicate (Z.to_nat (my + 1)) (replicate (Z.to_nat (mx + 1)) (lit " "))).
Proof.
  intros Hx Hy. unfold new_grid. simpl.
  rewrite !wrap_int64_exact by (unfold int64_max in *; lia).
  destruct (Z.to_nat (my + 1)) eqn:E; [lia | reflexivity].
Qed.

Lemma max_coord_lt (col : list Z) (b : Z) :
  0 < b -> Forall (fun z => z < b) col -> max_coord col < b.
Proof.
  intros Hb. unfold max_coord.
  induction 1 as [|a col Ha _ IH]; simpl; lia.
Qed.

Lemma below_cols (df : pandas.DataFrame) :
  below_int64_max df ->
  max_coord (pandas.col_x df) < int64_max /\
  max_coord (pandas.col_y df) < int64_max.
Proof.
  intros Hb. unfold below_int64_max in Hb.
  split; (apply max_coord_lt; [reflexivity|]);
    unfold pandas.col_x, pandas.col_y; rewrite Forall_map;
    (eapply Forall_impl; [exact Hb|]); intros t [Hx Hy]; assumption.
Qed.

Lemma rect_replicate (h w : nat) (c : str) :
  rect h w (replicate h (replicate w c)).
Proof.
  split.
  - apply length_replicate.
  - apply Forall_replicate. apply length_replicate.
Qed.

Lemma get_cell_replicate (h w i j : nat) (c : str) :
  (i < h)%nat -> (j < w)%nat ->
  get_cell (replicate h (replicate w c)) i j = Some c.
Proof.
  intros Hi Hj. unfold get_cell.
  rewrite lookup_replicate_2 by assumption.
  now apply lookup_replicate_2.
Qed.

(** Allocation followed by filling, on a frame with a row and no
    negative coordinate. *)
Lemma build_grid_spec (df : pandas.DataFrame) :
  df <> [] -> nonneg df -> below_int64_max df ->
  let w := Z.to_nat (max_coord (pandas.col_x df) + 1) in
  let h := Z.to_nat (max_coord (pandas.col_y df) + 1) in
  exists g,
    new_grid (pandas.max (pandas.col_x df)) (pandas.max (pandas.col_y df))
      = inr (replicate h (replicate w (lit " "))) /\
    fill_grid (replicate h (replicate w (lit " "))) df = inr g /\
    rect h w g /\
    forall i j, (i < h)%nat -> (j < w)%nat ->
      get_cell g i j = Some (cell_at df (Z.of_nat j) (Z.of_nat i)).
Proof.
  intros Hne Hnn Hbelow w h.
  destruct (nonneg_cols df Hnn) as [Hcx Hcy].
  destruct (below_cols df Hbelow) as [Hbx Hby].
  destruct (max_coord_ge (pandas.col_x df)) as [Hmx _].
  destruct (max_coord_ge (pandas.col_y df)) as [Hmy _].
  assert (Hx : pandas.col_x df <> []) by (destruct df; [congruence | discriminate]).
  assert (Hy : pandas.col_y df <> []) by (destruct df; [congruence | discriminate]).
  rewrite (pandas_max_nonneg _ Hx Hcx), (pandas_max_nonneg _ Hy Hcy).
  rewrite new_grid_nonneg by (split; assumption). fold w h.
  destruct (fill_grid_spec h w df _ (rect_replicate h w (lit " ")))
    as (g & Hfill & Hrect & Hcells).
  { eapply Forall_impl; [apply nonneg_in_bounds; assumption|].
    intros t Ht. simpl in Ht. subst w h. lia. }
  exists g. repeat split; try assumption; try apply Hrect.
  intros i j Hi Hj. rewrite Hcells. unfold cell_at.
  destruct (last_at df (Z.of_nat j) (Z.of_nat i)); [reflexivity|].
  simpl. now apply get_cell_replicate.
Qed.

(** A row of a grid is the list of its cells. *)
Lemma row_of_cells (h w : nat) (g : Grid) (f : Z -> Z -> str) (i : nat) :
  rect h w g -> (i < h)%nat ->
  (forall j, (j < w)%nat -> get_cell g i j = Some (f (Z.of_nat j) (Z.of_nat i))) ->
  g !! i = Some (List.map (fun x => f x (Z.of_nat i)) (seqZ 0 (Z.of_nat w))).
Proof.
  intros [Hlen Hrows] Hi Hcells.
  destruct (lookup_lt_is_Some_2 g i) as [row Hrow]; [lia|].
  assert (Hw : length row = w).
  { rewrite Forall_forall in Hrows. apply Hrows.
    eapply list_elem_of_lookup_2; eauto. }
  rewrite Hrow. f_equal.
  change (List.map (fun x => f x (Z.of_nat i)) (seqZ 0 (Z.of_nat w)))
    with ((fun x => f x (Z.of_nat i)) <$> seqZ 0 (Z.of_nat w)).
  apply list_eq. intros j.
  rewrite list_lookup_fmap.
  destruct (decide (j < w)%nat) as [Hj|Hj].
  - specialize (Hcells j Hj). unfold get_cell in Hcells. rewrite Hrow in Hcells.
    rewrite Hcells.
    rewrite (lookup_seqZ_lt 0 (Z.of_nat w) j) by lia. simpl. reflexivity.
  - rewrite lookup_ge_None_2 by lia.
    rewrite lookup_seqZ_ge by lia. reflexivity.
Qed.

(** [range(start, -1, -1)] lists what [seqZ] lists, backwards. *)
Lemma range_down_rev (n : nat) :
  range_down (Z.of_nat n - 1) = rev (seqZ 0 (Z.of_nat n)).
Proof.
  unfold range_down, seqZ.
  replace (Z.to_nat (Z.of_nat n - 1 + 1)) with n by lia.
  rewrite Nat2Z.id.
  change (fmap (M := list) ?f ?l) with (List.map f l).
  induction n as [|n IH].
  - reflexivity.
  - rewrite seq_S at 2. rewrite List.map_app, rev_app_distr. simpl.
    rewrite <- seq_shift, List.map_map. f_equal; [lia|].
    rewrite <- IH. apply List.map_ext. intros k. lia.
Qed.


Lemma last_at_none (df : pandas.DataFrame) (x y : Z) :
  (forall c, ~ In (x, y, c) df) -> last_at df x y = None.
Proof.
  induction df as [|[[x' y'] c] rest IH]; intros Hno; simpl.
  - reflexivity.
  - rewrite IH by (intros c' Hc'; apply (Hno c'); now right).
    destruct (x' =? x) eqn:Ex; [|reflexivity].
    destruct (y' =? y) eqn:Ey; [|reflexivity].
    apply Z.eqb_eq in Ex, Ey. subst. exfalso. apply (Hno c). now left.
Qed.


End GridFacts.

(* ================================================================= *)
(** ** Running method bodies *)

Section Running.

Lemma bind_returns {A B} (m : M A) (f : A -> M B) (st st' : State) (a : A) :
  m st = (inr a, st') -> (m ≫= f) st = f a st'.
Proof. intros H. unfold mbind, M_bind. now rewrite H. Qed.

Lemma print_emit (line : str) (st : State) :
  print line st = (inr tt, emit st [line]).
Proof. reflexivity. Qed.

Lemma emit_nil (st : State) : emit st [] = st.
Proof.
  destruct st as [me [out req]]. unfold emit, print_to. simpl.
  now rewrite app_nil_r.
Qed.

Lemma emit_emit (st : State) (a b : list str) :
  emit (emit st a) b = emit st (a ++ b).
Proof. unfold emit, print_to. simpl. now rewrite app_assoc. Qed.

(** The printing loop, when every index is a row of the grid. *)
Lemma print_rows_spec (g : Grid) (ys : list Z) (rows : list (list str)) :
  Forall2 (fun y row => 0 <= y /\ g !! Z.to_nat y = Some row) ys rows ->
  forall st, print_rows g ys st = (inr tt, emit st (List.map join rows)).
Proof.
  induction 1 as [|y row ys rows [Hy Hrow] _ IH]; intros st; simpl.
  - now rewrite emit_nil.
  - assert (Hlt : (Z.to_nat y < length g)%nat) by (eapply lookup_lt_Some; eauto).
    rewrite (bind_returns _ _ st (emit st [join row]) tt).
    + rewrite IH, emit_emit. reflexivity.
    + unfold print_row. rewrite index_in_range by lia. rewrite Hrow.
      apply print_emit.
Qed.

End Running.

(* ================================================================= *)
(** ** Rendering *)

Section Rendering.
Variable L : Library.

Lemma rev_reverse {A} (l : list A) : rev l = reverse l.
Proof. apply rev_alt. Qed.

Lemma Forall2_map_diag {A B} (P : A -> B -> Prop) (F : A -> B) (l : list A) :
  Forall (fun a => P a (F a)) l -> Forall2 P l (List.map F l).
Proof. induction 1; simpl; constructor; assumption. Qed.

(** [display_grid] on an instance that holds a frame with a row and no
    negative coordinate prints the rendering of the frame. *)
Lemma display_grid_renders
    (me : DecodeSecretMessage) (w : World) (df : pandas.DataFrame) :
  grid me = Some df -> df <> [] -> nonneg df -> below_int64_max df ->
  display_grid L {| self := me; world := w |} =
    (inr tt, {| self := me; world := print_to w (rendering df) |}).
Proof.
  intros Hgrid Hne Hnn Hbelow.
  destruct (build_grid_spec df Hne Hnn Hbelow) as (g & Hnew & Hfill & Hrect & Hcells).
  destruct (nonneg_cols df Hnn) as [_ Hcy].
  destruct (max_coord_ge (pandas.col_x df)) as [Hmx _].
  destruct (max_coord_ge (pandas.col_y df)) as [Hmy _].
  assert (Hy : pandas.col_y df <> []) by (destruct df; [congruence | discriminate]).
  set (st := {| self := me; world := w |}).
  unfold display_grid.
  rewrite (bind_returns _ _ st st me) by reflexivity.
  rewrite Hgrid.
  rewrite (bind_returns _ _ st st tt) by reflexivity.
  rewrite (bind_returns _ _ st st me) by reflexivity.
  rewrite Hgrid. cbv zeta.
  rewrite (bind_returns _ _ st st _ (f_equal (fun r => (r, st)) Hnew)).
  rewrite (bind_returns _ _ st st _ (f_equal (fun r => (r, st)) Hfill)).
  rewrite (pandas_max_nonneg _ Hy Hcy).
  set (mx := max_coord (pandas.col_x df)) in *.
  set (my := max_coord (pandas.col_y df)) in *.
  replace my with (Z.of_nat (Z.to_nat (my + 1)) - 1) at 1 by lia.
  rewrite range_down_rev.
  rewrite Z2Nat.id by lia.
  rewrite (print_rows_spec g _
             (List.map (fun y => List.map (fun x => cell_at df x y) (seqZ 0 (mx + 1)))
                       (rev (seqZ 0 (my + 1))))).
  - rewrite List.map_map. reflexivity.
  - apply Forall2_map_diag. rewrite Forall_forall. intros y Hin.
    rewrite rev_reverse, elem_of_reverse, elem_of_seqZ in Hin.
    split; [lia|].
    rewrite (row_of_cells _ _ g (cell_at df) (Z.to_nat y) Hrect) by
      (try lia; intros j Hj; apply Hcells; lia).
    rewrite !Z2Nat.id by lia. reflexivity.
Qed.

(** The rows of a grid, read by index from 0 up. *)
Lemma rows_by_index (g : Grid) :
  List.map (fun y => default [] (g !! Z.to_nat y)) (seqZ 0 (Z.of_nat (length g))) = g.
Proof.
  change (List.map ?f ?l) with (f <$> l).
  apply list_eq. intros i. rewrite list_lookup_fmap.
  destruct (decide (i < length g)%nat) as [Hi|Hi].
  - rewrite (lookup_seqZ_lt 0 (Z.of_nat (length g)) i) by lia. simpl.
    replace (Z.to_nat (0 + Z.of_nat i)) with i by lia.
    destruct (lookup_lt_is_Some_2 g i Hi) as [row Hrow]. now rewrite Hrow.
  - rewrite lookup_seqZ_ge by lia. simpl.
    symmetry. apply lookup_ge_None_2. lia.
Qed.

(** Once the grid is filled, [display_grid] prints its rows, the last
    row first. *)
Lemma display_grid_prints_grid
    (me : DecodeSecretMessage) (w : World) (df : pandas.DataFrame)
    (g0 g : Grid) (top : Z) :
  grid me = Some df ->
  new_grid (pandas.max (pandas.col_x df)) (pandas.max (pandas.col_y df)) = inr g0 ->
  fill_grid g0 df = inr g ->
  pandas.max (pandas.col_y df) = Int top ->
  Z.of_nat (length g) = top + 1 ->
  display_grid L {| self := me; world := w |} =
    (inr tt, {| self := me; world := print_to w (List.map join (rev g)) |}).
Proof.
  intros Hgrid Hnew Hfill Htop Hlen.
  set (st := {| self := me; world := w |}).
  unfold display_grid.
  rewrite (bind_returns _ _ st st me) by reflexivity.
  rewrite Hgrid.
  rewrite (bind_returns _ _ st st tt) by reflexivity.
  rewrite (bind_returns _ _ st st me) by reflexivity.
  rewrite Hgrid. cbv zeta.
  rewrite (bind_returns _ _ st st _ (f_equal (fun r => (r, st)) Hnew)).
  rewrite (bind_returns _ _ st st _ (f_equal (fun r => (r, st)) Hfill)).
  rewrite Htop.
  replace top with (Z.of_nat (length g) - 1) by lia.
  rewrite range_down_rev.
  rewrite (print_rows_spec g _
             (List.map (fun y => default [] (g !! Z.to_nat y))
                       (rev (seqZ 0 (Z.of_nat (length g)))))).
  - now rewrite List.map_rev, rows_by_index.
  - apply Forall2_map_diag. rewrite Forall_forall. intros y Hin.
    rewrite rev_reverse, elem_of_reverse, elem_of_seqZ in Hin.
    split; [lia|].
    destruct (lookup_lt_is_Some_2 g (Z.to_nat y)) as [row Hrow]; [lia|].
    now rewrite Hrow.
Qed.

(** The same, for the grid of a frame whose coordinates are not negative
    and below the largest [numpy.int64]. *)
Lemma display_grid_prints_built_grid
    (me : DecodeSecretMessage) (w : World) (df : pandas.DataFrame) (g : Grid) :
  grid me = Some df -> df <> [] -> nonneg df -> below_int64_max df ->
  fill_grid
    (replicate (Z.to_nat (max_coord (pandas.col_y df) + 1))
       (replicate (Z.to_nat (max_coord (pandas.col_x df) + 1)) (lit " "))) df
    = inr g ->
  display_grid L {| self := me; world := w |} =
    (inr tt, {| self := me; world := print_to w (List.map join (rev g)) |}).
Proof.
  intros Hgrid Hne Hnn Hbelow Hfill.
  destruct (build_grid_spec df Hne Hnn Hbelow) as (g' & Hnew & Hfill' & Hrect & _).
  rewrite Hfill in Hfill'. injection Hfill' as <-.
  destruct (nonneg_cols df Hnn) as [_ Hcy].
  destruct (max_coord_ge (pandas.col_y df)) as [Hmy _].
  assert (Hy : pandas.col_y df <> []) by (destruct df; [congruence | discriminate]).
  apply (display_grid_prints_grid me w df _ g (max_coord (pandas.col_y df))
           Hgrid Hnew Hfill (pandas_max_nonneg _ Hy Hcy)).
  destruct Hrect as [-> _]. lia.
Qed.



End Rendering.










(* ================================================================= *)
(** ** Parsing the table *)

Section Parsing.
Variable L : Library.

Lemma get_data_row_spec (grid_data : pandas.DataFrame) (cells : bs4.Row) (st : State) :
  get_data_row L grid_data cells st =
    (inr (grid_data ++ parsed_triples L [cells]), emit st (diagnostics L [cells])).
Proof.
  unfold get_data_row, diagnostics. simpl.
  destruct cells as [|c0 [|c1 [|c2 rest]]]; simpl;
    try (rewrite app_nil_r, emit_nil; reflexivity).
  destruct (int L (strip c0)) as [x|]; simpl.
  - destruct (int L (strip c2)) as [y|]; simpl.
    + now rewrite emit_nil.
    + now rewrite app_nil_r.
  - now rewrite app_nil_r.
Qed.

Lemma parsed_triples_cons (row : bs4.Row) (rows : bs4.Table) :
  parsed_triples L (row :: rows) = parsed_triples L [row] ++ parsed_triples L rows.
Proof. simpl. now destruct (row_triple L row). Qed.

Lemma diagnostics_cons (row : bs4.Row) (rows : bs4.Table) :
  diagnostics L (row :: rows) = diagnostics L [row] ++ diagnostics L rows.
Proof. unfold diagnostics. simpl. now destruct (bad_coordinate L row). Qed.

(** The loop of [get_data]: it never raises, appends the triples of the
    rows that parse and prints the diagnostics of those that do not. *)
Lemma get_data_rows_spec (rows : bs4.Table) :
  forall (grid_data : pandas.DataFrame) (st : State),
    get_data_rows L rows grid_data st =
      (inr (grid_data ++ parsed_triples L rows), emit st (diagnostics L rows)).
Proof.
  induction rows as [|row rows IH]; intros grid_data st.
  - simpl. now rewrite app_nil_r, emit_nil.
  - cbn [get_data_rows].
    rewrite (bind_returns _ _ _ _ _ (get_data_row_spec grid_data row st)).
    rewrite IH, emit_emit, <- app_assoc.
    now rewrite <- parsed_triples_cons, <- diagnostics_cons.
Qed.

Lemma get_data_spec (me : DecodeSecretMessage) (w : World)
    (r : requests.Response) (table : bs4.Table) :
  response me = Some r -> requests.ok r = true ->
  bs4.find_table (requests.text r) = Some table ->
  get_data L {| self := me; world := w |} =
    (inr tt,
     {| self := {| _url := _url me; response := response me;
                   grid := Some (parsed_triples L (tail table)) |};
        world := print_to w (diagnostics L (tail table)) |}).
Proof.
  intros Hresp Hok Htable. unfold get_data.
  rewrite (bind_returns get_self _ {| self := me; world := w |} _ me eq_refl).
  rewrite Hresp, Hok, Htable. cbn [negb].
  rewrite (bind_returns _ _ _ _ _ (get_data_rows_spec _ _ _)).
  unfold set_grid, emit. simpl. now rewrite Hresp.
Qed.

Lemma parsed_triples_in (rows : bs4.Table) (t : Z * Z * str) :
  In t (parsed_triples L rows) ->
  exists c0 c1 c2 rest,
    In (c0 :: c1 :: c2 :: rest) rows /\
    int L (strip c0) = Some (fst (fst t)) /\
    int L (strip c2) = Some (snd (fst t)) /\
    snd t = strip c1.
Proof.
  induction rows as [|row rows IH]; simpl; [intros []|].
  destruct (row_triple L row) as [t'|] eqn:E.
  - intros [->|Hin].
    + unfold row_triple in E.
      destruct row as [|c0 [|c1 [|c2 rest]]]; try discriminate.
      destruct (int L (strip c0)) as [x|] eqn:Ex; [|discriminate].
      destruct (int L (strip c2)) as [y|] eqn:Ey; [|discriminate].
      injection E as <-. exists c0, c1, c2, rest. simpl. auto.
    + destruct (IH Hin) as (c0 & c1 & c2 & rest & H & Hr).
      exists c0, c1, c2, rest. auto.
  - intros Hin. destruct (IH Hin) as (c0 & c1 & c2 & rest & H & Hr).
    exists c0, c1, c2, rest. auto.
Qed.

Lemma parsed_triples_filter (rows : bs4.Table) :
  parsed_triples L (List.filter (fun row => negb (bad_coordinate L row)) rows)
  = parsed_triples L rows.
Proof.
  induction rows as [|row rows IH]; simpl; [reflexivity|].
  destruct (bad_coordinate L row) eqn:Eb; simpl.
  - rewrite IH.
    destruct row as [|c0 [|c1 [|c2 rest]]]; try discriminate.
    simpl in *.
    destruct (int L (strip c0)); [|reflexivity].
    destruct (int L (strip c2)); [discriminate | reflexivity].
  - now rewrite IH.
Qed.

End Parsing.

(** C2. On a response whose markup has a table, the parser works on the
    first table: it skips the header row; of each later row with at least
    three cells it reads cell 1 as x, cell 2 as the character and cell 3 as
    y, each trimmed; a row with a coordinate that is not an integer gives
    no triple and one diagnostic, and the rows after it are still parsed;
    the frame holds the triples of the rows that parsed, in their order. *)
Theorem get_data_parses_table
    (L : Library) (me : DecodeSecretMessage) (w : World) (r : requests.Response)
    (header : bs4.Row) (rows : bs4.Table) (others : bs4.Soup) :
  response me = Some r -> requests.ok r = true ->
  requests.text r = (header :: rows) :: others ->
  get_data L {| self := me; world := w |} =
    (inr tt,
     {| self := {| _url := _url me; response := response me;
                   grid := Some (parsed_triples L rows) |};
        world := print_to w (diagnostics L rows) |}).
Proof.
  intros Hresp Hok Htext.
  apply (get_data_spec L me w r (header :: rows) Hresp Hok).
  now rewrite Htext.
Qed.

Lemma get_data_parses_table_witness :
  requests.ok scenario_response = true /\
  get_data ascii_library
    {| self := {| _url := test_url; response := Some scenario_response; grid := None |};
       world := quiet |} =
    (inr tt,
     {| self := {| _url := test_url; response := Some scenario_response;
                   grid := Some scenario_df |};
        world := {| stdout := [msg_row_error]; requested := [] |} |}).
Proof.
  split; [reflexivity|].
  exact (get_data_parses_table ascii_library
           {| _url := test_url; response := Some scenario_response; grid := None |}
           quiet scenario_response _ _ [] eq_refl eq_refl eq_refl).
Defined.

(** C6, as the code has it. Every triple of the parser's output has for x
    and y the integers, of either sign, that [int] reads from the trimmed
    first and third cell of a data row with at least three cells; a row
    with a coordinate that is not an integer is not accepted: the output
    is the one of the table without such rows. *)
Theorem parser_accepts_integer_coordinates
    (L : Library) (rows : bs4.Table) (st : State) :
  exists df : pandas.DataFrame,
    get_data_rows L rows [] st = (inr df, emit st (diagnostics L rows)) /\
    (forall t, In t df ->
       exists c0 c1 c2 rest,
         In (c0 :: c1 :: c2 :: rest) rows /\
         int L (strip c0) = Some (fst (fst t)) /\
         int L (strip c2) = Some (snd (fst t))) /\
    fst (get_data_rows L
           (List.filter (fun row => negb (bad_coordinate L row)) rows) [] st)
      = inr df.
Proof.
  exists (parsed_triples L rows). split; [|split].
  - apply get_data_rows_spec.
  - intros t Hin.
    destruct (parsed_triples_in L rows t Hin) as (c0 & c1 & c2 & rest & H1 & H2 & H3 & _).
    exists c0, c1, c2, rest. auto.
  - rewrite get_data_rows_spec. simpl. now rewrite parsed_triples_filter.
Qed.

(** The parser accepts the row (-1, A, 0): its output is not always free
    of negative coordinates. *)
Lemma negative_coordinate_is_accepted :
  ~ (forall (rows : bs4.Table) (st st' : State) (df : pandas.DataFrame),
       get_data_rows ascii_library rows [] st = (inr df, st') -> nonneg df).
Proof.
  intros H.
  specialize (H [[lit "-1"; lit "A"; lit "0"]]
                {| self := scenario_instance; world := quiet |}
                {| self := scenario_instance; world := quiet |}
                [(-1, 0, lit "A")] eq_refl).
  inversion H as [|? ? [Hx _] _]. simpl in Hx. lia.
Qed.

(* ================================================================= *)
(** ** The URL *)

Section Url.
Variable L : Library.

Lemma urlparse_raises_value_error (s : str) (e : exn) :
  urllib.urlparse L s = inl e -> exists msg, e = ValueError msg.
Proof.
  unfold urllib.urlparse.
  destruct (match urllib.find 58 _ with Some _ => _ | None => _ end) as [sch rest].
  destruct rest as [|a [|b rest]]; try discriminate.
  destruct ((a =? 47) && (b =? 47))%N; [|discriminate].
  destruct (urllib.check_brackets L _) as [m|].
  - intros [= <-]. eauto.
  - destruct (urllib.checknetloc L _) as [m|]; [|discriminate].
    intros [= <-]. eauto.
Qed.

(** The setter refuses every invalid input. *)
Lemma url_setter_refuses (v : value) :
  invalid_input L v ->
  exists e, url_setter L v = inl e /\ is_invalid_input_error e.
Proof.
  unfold is_invalid_input_error.
  destruct v as [| | | |s]; simpl;
    try (intros _; eexists; split; [reflexivity | eexists; left; reflexivity]).
  intros Hbad.
  destruct (isspace s) eqn:Esp; [eexists; split; eauto|].
  destruct (urllib.urlparse L s) as [e|p] eqn:Ep.
  { destruct (urlparse_raises_value_error s e Ep) as [m ->]. eauto. }
  destruct (bool_decide (urllib.scheme p = lit "https")) eqn:Es;
    [|simpl; eauto].
  destruct (bool_decide (urllib.netloc p = lit "docs.google.com")) eqn:En;
    [|simpl; eauto].
  apply bool_decide_eq_true in Es, En. exfalso.
  destruct Hbad as [->|[Hsp|[Hs|Hn]]].
  - simpl in Ep. injection Ep as <-. discriminate Es.
  - discriminate.
  - apply Hs. exists p. auto.
  - apply Hn. exists p. auto.
Qed.

End Url.

(** C7. Given a value that is not a string, or the empty or an
    all-whitespace string, or a URL that does not use https, or one that
    does not target docs.google.com, the setter of [url] raises (a
    TypeError or a ValueError), and so does the constructor; the exception
    leaves [Main] before anything is printed and before any request is
    sent. *)
Theorem invalid_url_raises_before_network
    (L : Library) (net : requests.Network) (v : value) (w : World) :
  invalid_input L v ->
  exists e : exn,
    url_setter L v = inl e /\ is_invalid_input_error e /\
    __init__ L v = inl e /\
    Main_with L net v w = (inl e, w).
Proof.
  intros Hbad.
  destruct (url_setter_refuses L v Hbad) as (e & Hset & He).
  exists e. split; [assumption|]. split; [assumption|].
  assert (Hinit : __init__ L v = inl e) by (unfold __init__; now rewrite Hset).
  split; [assumption|].
  unfold Main_with. now rewrite Hinit.
Qed.

(** The host-mismatch scenario. *)
Lemma invalid_url_raises_before_network_witness :
  invalid_input ascii_library (VStr (lit "https://example.com/doc")) /\
  Main_with ascii_library no_network (VStr (lit "https://example.com/doc")) quiet
    = (inl (ValueError msg_invalid), quiet).
Proof.
  assert (Hbad : invalid_input ascii_library (VStr (lit "https://example.com/doc"))).
  { right. right. right. intros (p & Hp & Hn).
    vm_compute in Hp. injection Hp as <-. discriminate Hn. }
  split; [exact Hbad|].
  destruct (invalid_url_raises_before_network ascii_library no_network _ quiet Hbad)
    as (e & Hset & _ & _ & Hmain).
  vm_compute in Hset. injection Hset as <-. exact Hmain.
Defined.

(** C10. The empty string is not whitespace for [isspace], so the check
    for an empty URL does not fire; the setter still raises: the check of
    scheme and host refuses the empty string, with the message of an
    invalid URL and not the one of an empty URL. *)
Theorem empty_url_rejected_by_scheme_check (L : Library) :
  isspace [] = false /\
  url_setter L (VStr []) = inl (ValueError msg_invalid) /\
  msg_invalid <> msg_empty.
Proof.
  split; [reflexivity|]. split; [reflexivity|]. discriminate.
Qed.

(* ================================================================= *)
(** ** The pipeline *)

Section Pipeline.
Variable L : Library.
Variable net : requests.Network.

Lemma init_fresh (v : value) (me : DecodeSecretMessage) :
  __init__ L v = inr me -> response me = None /\ grid me = None.
Proof.
  unfold __init__. destruct (url_setter L v); [discriminate|].
  intros [= <-]. auto.
Qed.

Lemma ok_no_error (r : requests.Response) :
  requests.ok r = true -> requests.raise_for_status r = None.
Proof. unfold requests.ok. now destruct (requests.raise_for_status r). Qed.

Lemma error_status (r : requests.Response) :
  400 <= requests.status_code r < 600 ->
  exists e, requests.raise_for_status r = Some e.
Proof.
  intros H. unfold requests.raise_for_status.
  destruct ((400 <=? _) && (_ <? 500)) eqn:E1; [eauto|].
  destruct ((500 <=? _) && (_ <? 600)) eqn:E2; [eauto|].
  apply andb_false_iff in E1, E2.
  rewrite Z.leb_gt, Z.ltb_ge in E1, E2. lia.
Qed.

Lemma verify_public_url_returns
    (me : DecodeSecretMessage) (w : World) (r : requests.Response) :
  net (_url me) = requests.Returns r -> requests.raise_for_status r = None ->
  verify_public_url net {| self := me; world := w |} =
    (inr true,
     {| self := with_response me r;
        world := {| stdout := stdout w; requested := requested w ++ [_url me] |} |}).
Proof.
  intros Hnet Hok.
  unfold verify_public_url, mbind, M_bind, get_self, requests_get. simpl.
  rewrite Hnet. simpl. now rewrite Hok.
Qed.

Lemma verify_public_url_error_status
    (me : DecodeSecretMessage) (w : World) (r : requests.Response) (e : str) :
  net (_url me) = requests.Returns r -> requests.raise_for_status r = Some e ->
  verify_public_url net {| self := me; world := w |} =
    (inr false,
     {| self := with_response me r;
        world := {| stdout := stdout w ++ [lit "Error accessing the URL: " ++ e];
                    requested := requested w ++ [_url me] |} |}).
Proof.
  intros Hnet Hok.
  unfold verify_public_url, mbind, M_bind, get_self, requests_get. simpl.
  rewrite Hnet. simpl. now rewrite Hok.
Qed.

Lemma verify_public_url_raises
    (me : DecodeSecretMessage) (w : World) (e : str) :
  net (_url me) = requests.Raises e ->
  verify_public_url net {| self := me; world := w |} =
    (inr false,
     {| self := me;
        world := {| stdout := stdout w ++ [lit "Error accessing the URL: " ++ e];
                    requested := requested w ++ [_url me] |} |}).
Proof.
  intros Hnet.
  unfold verify_public_url, mbind, M_bind, get_self, requests_get. simpl.
  rewrite Hnet. simpl. now destruct me.
Qed.

(** When the fetch fails, [Main] prints the three messages and ends. *)
Lemma Main_after_failed_fetch
    (v : value) (me me' : DecodeSecretMessage) (w : World) (e : str) :
  __init__ L v = inr me ->
  verify_public_url net {| self := me; world := w |} =
    (inr false,
     {| self := me';
        world := {| stdout := stdout w ++ [lit "Error accessing the URL: " ++ e];
                    requested := requested w ++ [_url me] |} |}) ->
  Main_with L net v w =
    (inr tt,
     {| stdout := stdout w ++ [lit "Error accessing the URL: " ++ e;
                               lit "Error: " ++ msg_access; msg_hint];
        requested := requested w ++ [_url me] |}).
Proof.
  intros Hinit Hver. unfold Main_with, Main_try. rewrite Hinit.
  rewrite (bind_returns _ _ _ _ _ Hver). simpl.
  unfold print_to. simpl. now rewrite <- app_assoc.
Qed.

Lemma get_data_no_table
    (me : DecodeSecretMessage) (w : World) (r : requests.Response) :
  response me = Some r -> requests.ok r = true -> requests.text r = [] ->
  get_data L {| self := me; world := w |} =
    (inr tt, {| self := me; world := print_to w [msg_no_table] |}).
Proof.
  intros Hresp Hok Htext. unfold get_data.
  rewrite (bind_returns get_self _ {| self := me; world := w |} _ me eq_refl).
  rewrite Hresp, Hok, Htext. reflexivity.
Qed.

Lemma display_grid_no_table
    (me : DecodeSecretMessage) (w : World) (r : requests.Response) :
  response me = Some r -> grid me = None ->
  requests.ok r = true -> requests.text r = [] ->
  display_grid L {| self := me; world := w |} =
    (inr tt, {| self := me; world := print_to w [msg_no_table; msg_no_data] |}).
Proof.
  intros Hresp Hgrid Hok Htext. unfold display_grid.
  rewrite (bind_returns get_self _ {| self := me; world := w |} _ me eq_refl).
  rewrite Hgrid.
  rewrite (bind_returns _ _ _ _ _ (get_data_no_table me w r Hresp Hok Htext)).
  rewrite (bind_returns get_self _
             {| self := me; world := print_to w [msg_no_table] |} _ me eq_refl).
  rewrite Hgrid. unfold print, print_to. simpl. now rewrite <- app_assoc.
Qed.

End Pipeline.

(** C8. When the fetched markup holds no table, [get_data] prints the
    message that no table was found, returns normally and leaves the
    instance without a frame; [Main] then ends normally: [display_grid]
    tries [get_data] once more (the message is printed a second time),
    reports that there is no data to display, and no line of a grid is
    printed. *)
Theorem no_table_is_reported_as_no_data
    (L : Library) (net : requests.Network) (v : value)
    (me : DecodeSecretMessage) (r : requests.Response) (w : World) :
  __init__ L v = inr me ->
  net (_url me) = requests.Returns r ->
  requests.ok r = true ->
  requests.text r = [] ->
  get_data L {| self := with_response me r; world := w |} =
    (inr tt, {| self := with_response me r; world := print_to w [msg_no_table] |}) /\
  Main_with L net v w =
    (inr tt,
     {| stdout := stdout w ++ [msg_no_table; msg_no_table; msg_no_data];
        requested := requested w ++ [_url me] |}).
Proof.
  intros Hinit Hnet Hok Htext.
  destruct (init_fresh L v me Hinit) as [_ Hgrid].
  split.
  - now apply (get_data_no_table L _ w r).
  - unfold Main_with, Main_try. rewrite Hinit.
    rewrite (bind_returns _ _ _ _ _
               (verify_public_url_returns net me w r Hnet (ok_no_error r Hok))).
    cbn [negb].
    rewrite (bind_returns (mret tt) _ _ _ tt eq_refl).
    rewrite (bind_returns _ _ _ _ _
               (get_data_no_table L (with_response me r) _ r eq_refl Hok Htext)).
    rewrite (display_grid_no_table L (with_response me r) _ r eq_refl Hgrid Hok Htext).
    unfold print_to. simpl. now rewrite <- app_assoc.
Qed.

Lemma no_table_is_reported_as_no_data_witness :
  requests.ok tableless_response = true /\
  Main ascii_library (fun _ => requests.Returns tableless_response) quiet =
    (inr tt,
     {| stdout := [msg_no_table; msg_no_table; msg_no_data];
        requested := [test_url] |}).
Proof.
  split; [reflexivity|].
  exact (proj2 (no_table_is_reported_as_no_data ascii_library
                  (fun _ => requests.Returns tableless_response) (VStr test_url)
                  {| _url := test_url; response := None; grid := None |}
                  tableless_response quiet eq_refl eq_refl eq_refl eq_refl)).
Defined.

(** C9, as the code has it. When the GET cannot complete, or returns an
    error status (4xx or 5xx), [verify_public_url] reports the error and
    returns False, and [Main] ends after the messages of the failure: no
    line of a grid is printed. *)
Theorem fetch_failure_aborts
    (L : Library) (net : requests.Network) (v : value)
    (me : DecodeSecretMessage) (w : World) :
  __init__ L v = inr me ->
  (exists e, net (_url me) = requests.Raises e) \/
  (exists r, net (_url me) = requests.Returns r /\
             400 <= requests.status_code r < 600) ->
  exists (e : str) (me' : DecodeSecretMessage),
    verify_public_url net {| self := me; world := w |} =
      (inr false,
       {| self := me';
          world := {| stdout := stdout w ++ [lit "Error accessing the URL: " ++ e];
                      requested := requested w ++ [_url me] |} |}) /\
    Main_with L net v w =
      (inr tt,
       {| stdout := stdout w ++ [lit "Error accessing the URL: " ++ e;
                                 lit "Error: " ++ msg_access; msg_hint];
          requested := requested w ++ [_url me] |}).
Proof.
  intros Hinit [[e Hnet]|(r & Hnet & Hstatus)].
  - exists e, me.
    pose proof (verify_public_url_raises net me w e Hnet) as Hver.
    split; [exact Hver|]. now apply (Main_after_failed_fetch L net v me me).
  - destruct (error_status r Hstatus) as [e He].
    exists e, (with_response me r).
    pose proof (verify_public_url_error_status net me w r e Hnet He) as Hver.
    split; [exact Hver|].
    now apply (Main_after_failed_fetch L net v me (with_response me r)).
Qed.

Lemma fetch_failure_aborts_witness :
  (exists r, not_found test_url = requests.Returns r /\
             400 <= requests.status_code r < 600) /\
  Main ascii_library not_found quiet =
    (inr tt,
     {| stdout :=
          [lit "Error accessing the URL: 404 Client Error: Not Found for url: " ++ test_url;
           lit "Error: " ++ msg_access; msg_hint];
        requested := [test_url] |}).
Proof.
  assert (Hst : exists r, not_found test_url = requests.Returns r /\
                          400 <= requests.status_code r < 600).
  { eexists. split; [reflexivity|]. simpl. lia. }
  split; [exact Hst|].
  destruct (fetch_failure_aborts ascii_library not_found (VStr test_url)
              {| _url := test_url; response := None; grid := None |} quiet
              eq_refl (or_intror Hst))
    as (e & me' & Hver & Hmain).
  vm_compute in Hver. injection Hver as _ He.
  subst e. exact Hmain.
Defined.

(** The status 300 is not a success status, yet the fetch does not fail
    and the grid of the markup is printed. *)
Lemma redirect_status_is_rendered :
  success_status 300 = false /\
  Main ascii_library multiple_choices quiet =
    (inr tt,
     {| stdout := [msg_row_error; lit "C "; lit "AB"];
        requested := [test_url] |}).
Proof. split; reflexivity. Qed.

(** C1, on the code. On a frame without rows [display_grid] does not
    report that there is no data: the maxima are [nan], and the
    allocation of the grid raises a TypeError. *)
Theorem display_grid_raises_on_empty_frame
    (L : Library) (u : str) (r : option requests.Response) (w : World) :
  display_grid L
    {| self := {| _url := u; response := r; grid := Some [] |}; world := w |} =
    (inl (TypeError (lit "'float' object cannot be interpreted as an integer")),
     {| self := {| _url := u; response := r; grid := Some [] |}; world := w |}).
Proof. reflexivity. Qed.

(** A table with its header row only, fetched with success: [Main] ends
    with the messages of an unexpected error. *)
Lemma Main_on_header_only_table :
  Main ascii_library
    (fun u => requests.Returns
                {| requests.status_code := 200; requests.reason := lit "OK";
                   requests.url := u;
                   requests.text := [[[lit "x-coordinate"; lit "Character";
                                       lit "y-coordinate"]]] |})
    quiet =
    (inr tt,
     {| stdout :=
          [msg_unexpected;
           lit "Details: 'float' object cannot be interpreted as an integer"];
        requested := [test_url] |}).
Proof. reflexivity. Qed.

(* ================================================================= *)
(** ** Further properties: the parser *)

Section ParserFacts.
Variable L : Library.

Lemma row_triple_first_three (cells : bs4.Row) :
  row_triple L (take 3 cells) = row_triple L cells.
Proof. now destruct cells as [|c0 [|c1 [|c2 rest]]]. Qed.

Lemma bad_coordinate_first_three (cells : bs4.Row) :
  bad_coordinate L (take 3 cells) = bad_coordinate L cells.
Proof. now destruct cells as [|c0 [|c1 [|c2 rest]]]. Qed.

Lemma short_row_silent (cells : bs4.Row) :
  short_row cells = true ->
  row_triple L cells = None /\ bad_coordinate L cells = false.
Proof.
  destruct cells as [|c0 [|c1 [|c2 rest]]]; auto.
  unfold short_row. simpl. discriminate.
Qed.

Lemma parsed_triples_relevant (rows : bs4.Table) :
  parsed_triples L
    (List.map (take 3) (List.filter (fun r => negb (short_row r)) rows))
  = parsed_triples L rows.
Proof.
  induction rows as [|row rows IH]; [reflexivity|]. simpl.
  destruct (short_row row) eqn:E; simpl.
  - now rewrite (proj1 (short_row_silent row E)).
  - now rewrite row_triple_first_three, IH.
Qed.

Lemma diagnostics_relevant (rows : bs4.Table) :
  diagnostics L
    (List.map (take 3) (List.filter (fun r => negb (short_row r)) rows))
  = diagnostics L rows.
Proof.
  unfold diagnostics.
  induction rows as [|row rows IH]; [reflexivity|]. simpl.
  destruct (short_row row) eqn:E; simpl.
  - now rewrite (proj2 (short_row_silent row E)).
  - rewrite bad_coordinate_first_three.
    destruct (bad_coordinate L row); simpl; now rewrite IH.
Qed.

Lemma row_accounting (rows : bs4.Table) :
  (length (parsed_triples L rows) + length (diagnostics L rows)
   + length (List.filter short_row rows) = length rows)%nat.
Proof.
  unfold diagnostics. rewrite List.length_map.
  induction rows as [|row rows IH]; [reflexivity|]. simpl.
  destruct row as [|c0 [|c1 [|c2 rest]]]; simpl; try lia.
  unfold short_row in *. simpl.
  destruct (int L (strip c0)); [destruct (int L (strip c2))|]; simpl; lia.
Qed.

End ParserFacts.

(** X1. Only the first three cells of a row with at least three cells
    are looked at, and a row with fewer cells is passed over in silence:
    the loop of [get_data] gives the same frame and prints the same lines
    on the table without its short rows and with each row cut after its
    third cell. *)
Theorem get_data_rows_reads_three_cells
    (L : Library) (rows : bs4.Table) (grid_data : pandas.DataFrame) (st : State) :
  get_data_rows L rows grid_data st =
  get_data_rows L
    (List.map (take 3) (List.filter (fun r => negb (short_row r)) rows))
    grid_data st.
Proof.
  rewrite !get_data_rows_spec.
  now rewrite parsed_triples_relevant, diagnostics_relevant.
Qed.

(** X2. Every row of the table is accounted for once: it gives a triple,
    or a diagnostic, or it has fewer than three cells. *)
Theorem get_data_rows_accounts_for_rows
    (L : Library) (rows : bs4.Table) (st : State) :
  exists (df : pandas.DataFrame) (lines : list str),
    get_data_rows L rows [] st = (inr df, emit st lines) /\
    (length df + length lines + length (List.filter short_row rows)
     = length rows)%nat.
Proof.
  exists (parsed_triples L rows), (diagnostics L rows). split.
  - apply get_data_rows_spec.
  - apply row_accounting.
Qed.

(* ================================================================= *)
(** ** Further properties: the methods *)

Section MethodFacts.
Variable L : Library.


Lemma get_data_no_response (me : DecodeSecretMessage) (w : World) :
  no_usable_response me ->
  get_data L {| self := me; world := w |} =
    (inr tt, {| self := me; world := print_to w [msg_no_response] |}).
Proof.
  intros [Hnone|(r & Hresp & Hok)]; unfold get_data;
    rewrite (bind_returns get_self _ {| self := me; world := w |} _ me eq_refl).
  - now rewrite Hnone.
  - now rewrite Hresp, Hok.
Qed.

(** What [get_data] leaves behind, in every case. *)
Lemma get_data_frame (me : DecodeSecretMessage) (w : World) :
  exists (lines : list str) (g : option pandas.DataFrame),
    get_data L {| self := me; world := w |} =
      (inr tt,
       {| self := {| _url := _url me; response := response me; grid := g |};
          world := print_to w lines |}).
Proof.
  destruct (response me) as [r|] eqn:Hresp.
  - destruct (requests.ok r) eqn:Hok.
    + destruct (bs4.find_table (requests.text r)) as [table|] eqn:Htable.
      * eexists _, _. rewrite <- Hresp.
        apply (get_data_spec L me w r table Hresp Hok Htable).
      * exists [msg_no_table], (grid me). unfold get_data.
        rewrite (bind_returns get_self _ {| self := me; world := w |} _ me eq_refl).
        rewrite Hresp, Hok, Htable. destruct me; simpl in *. now subst.
    + exists [msg_no_response], (grid me).
      rewrite get_data_no_response by (right; eauto).
      destruct me; simpl in *. now subst.
  - exists [msg_no_response], (grid me).
    rewrite get_data_no_response by (now left).
    destruct me; simpl in *. now subst.
Qed.

Lemma print_rows_frame (g : Grid) (ys : list Z) : forall st : State,
  exists (r : exn + unit) (lines : list str),
    print_rows g ys st = (r, emit st lines).
Proof.
  induction ys as [|y ys IH]; intros st; simpl.
  - exists (inr tt), []. now rewrite emit_nil.
  - unfold mbind, M_bind, print_row.
    destruct (index (length g) y) as [i|];
      [destruct (g !! i) as [row|]|];
      try (eexists (inl _), []; rewrite emit_nil; reflexivity).
    rewrite print_emit.
    destruct (IH (emit st [join row])) as (r & lines & ->).
    exists r, (join row :: lines). now rewrite emit_emit.
Qed.

(** [display_grid] on an instance without a frame: it asks [get_data]
    for one and goes on with what [get_data] left. *)
Lemma display_grid_fetches (me : DecodeSecretMessage) (w : World) (st1 : State) :
  grid me = None ->
  get_data L {| self := me; world := w |} = (inr tt, st1) ->
  display_grid L {| self := me; world := w |} =
    match grid (self st1) with
    | None => (inr tt, emit st1 [msg_no_data])
    | Some _ => display_grid L st1
    end.
Proof.
  intros Hgrid Hget.
  destruct (grid (self st1)) as [df|] eqn:Hg1;
    unfold display_grid, mbind, M_bind, get_self, mret, M_ret; cbn [self];
    rewrite Hgrid, Hget, ?Hg1; cbn [self]; rewrite ?Hg1; reflexivity.
Qed.

(** [display_grid] on an instance that holds a frame leaves the instance
    as it is, whatever the frame. *)
Lemma display_grid_held_frame
    (me : DecodeSecretMessage) (w : World) (df : pandas.DataFrame) :
  grid me = Some df ->
  exists (r : exn + unit) (lines : list str),
    display_grid L {| self := me; world := w |} =
      (r, {| self := me; world := print_to w lines |}).
Proof.
  intros Hgrid. set (st := {| self := me; world := w |}).
  assert (Hnil : forall r : exn + unit,
             (r, st) = (r, {| self := me; world := print_to w [] |})).
  { intros r. f_equal. change (st = emit st []). now rewrite emit_nil. }
  unfold display_grid.
  rewrite (bind_returns get_self _ st st me eq_refl). rewrite Hgrid.
  rewrite (bind_returns (mret tt) _ st st tt eq_refl).
  rewrite (bind_returns get_self _ st st me eq_refl). rewrite Hgrid. cbv zeta.
  unfold mbind, M_bind, lift.
  destruct (new_grid _ _) as [e|g0]; [exists (inl e), []; apply Hnil|].
  destruct (fill_grid g0 df) as [e|g]; [exists (inl e), []; apply Hnil|].
  destruct (pandas.max (pandas.col_y df)) as [top|].
  - destruct (print_rows_frame g (range_down top) st) as (r & lines & ->).
    exists r, lines. reflexivity.
  - eexists (inl _), []. apply Hnil.
Qed.

End MethodFacts.

(** X3. [get_data] on an instance without a response, or with a response
    whose truth value is false (an error status), prints that no response
    was found, returns normally and changes nothing of the instance. *)
Theorem get_data_without_response
    (L : Library) (me : DecodeSecretMessage) (w : World) :
  no_usable_response me ->
  get_data L {| self := me; world := w |} =
    (inr tt, {| self := me; world := print_to w [msg_no_response] |}).
Proof. intros H. now apply get_data_no_response. Qed.

(** The response of the fetch-failure scenario. *)
Definition not_found_response : requests.Response :=
  {| requests.status_code := 404;
     requests.reason := lit "Not Found";
     requests.url := test_url;
     requests.text := [scenario_table] |}.

Lemma get_data_without_response_witness :
  no_usable_response
    {| _url := test_url; response := Some not_found_response; grid := None |} /\
  get_data ascii_library
    {| self := {| _url := test_url; response := Some not_found_response; grid := None |};
       world := quiet |} =
    (inr tt,
     {| self := {| _url := test_url; response := Some not_found_response; grid := None |};
        world := {| stdout := [msg_no_response]; requested := [] |} |}).
Proof.
  assert (H : no_usable_response
                {| _url := test_url; response := Some not_found_response; grid := None |}).
  { right. exists not_found_response. split; reflexivity. }
  split; [exact H|].
  exact (get_data_without_response ascii_library _ quiet H).
Defined.



(** X6. [display_grid] on an instance that holds no frame yet calls
    [get_data] itself: with a usable response whose first table parses to
    a frame with a row (coordinates not negative and below 2**63 - 1), it
    prints the diagnostics of the parse, then the rendering, and the
    instance holds the frame afterwards. *)
Theorem display_grid_parses_when_no_frame
    (L : Library) (me : DecodeSecretMessage) (w : World) (r : requests.Response)
    (header : bs4.Row) (rows : bs4.Table) (others : bs4.Soup) :
  grid me = None ->
  response me = Some r -> requests.ok r = true ->
  requests.text r = (header :: rows) :: others ->
  parsed_triples L rows <> [] -> nonneg (parsed_triples L rows) ->
  below_int64_max (parsed_triples L rows) ->
  display_grid L {| self := me; world := w |} =
    (inr tt,
     {| self := with_grid me (parsed_triples L rows);
        world := print_to w (diagnostics L rows ++ rendering (parsed_triples L rows)) |}).
Proof.
  intros Hgrid Hresp Hok Htext Hne Hnn Hbelow.
  assert (Htable : bs4.find_table (requests.text r) = Some (header :: rows))
    by now rewrite Htext.
  rewrite (display_grid_fetches L me w _ Hgrid
             (get_data_spec L me w r (header :: rows) Hresp Hok Htable)).
  cbn [self grid tail].
  rewrite (display_grid_renders L
             {| _url := _url me; response := response me;
                grid := Some (parsed_triples L rows) |}
             (print_to w (diagnostics L rows)) (parsed_triples L rows)
             eq_refl Hne Hnn Hbelow).
  unfold with_grid, print_to. simpl. now rewrite app_assoc.
Qed.

Lemma display_grid_parses_when_no_frame_witness :
  requests.ok scenario_response = true /\
  parsed_triples ascii_library (tail scenario_table) <> [] /\
  nonneg (parsed_triples ascii_library (tail scenario_table)) /\
  below_int64_max (parsed_triples ascii_library (tail scenario_table)) /\
  display_grid ascii_library
    {| self := {| _url := test_url; response := Some scenario_response; grid := None |};
       world := quiet |} =
    (inr tt,
     {| self := {| _url := test_url; response := Some scenario_response;
                   grid := Some scenario_df |};
        world := {| stdout := [msg_row_error; lit "C "; lit "AB"];
                    requested := [] |} |}).
Proof.
  assert (Hne : parsed_triples ascii_library (tail scenario_table) <> [])
    by discriminate.
  assert (Hnn : nonneg (parsed_triples ascii_library (tail scenario_table))).
  { vm_compute. repeat constructor; discriminate. }
  assert (Hbelow : below_int64_max
                     (parsed_triples ascii_library (tail scenario_table))).
  { change (parsed_triples ascii_library (tail scenario_table)) with scenario_df.
    unfold scenario_df. repeat constructor. }
  split; [reflexivity|]. split; [exact Hne|]. split; [exact Hnn|].
  split; [exact Hbelow|].
  exact (display_grid_parses_when_no_frame ascii_library
           {| _url := test_url; response := Some scenario_response; grid := None |}
           quiet scenario_response _ _ [] eq_refl eq_refl eq_refl eq_refl
           Hne Hnn Hbelow).
Defined.

(** X7. [display_grid] on an instance that holds neither a frame nor a
    usable response prints that no response was found and that there is
    no data to display, returns normally and leaves the instance as it
    is. *)
Theorem display_grid_without_response
    (L : Library) (me : DecodeSecretMessage) (w : World) :
  grid me = None -> no_usable_response me ->
  display_grid L {| self := me; world := w |} =
    (inr tt, {| self := me; world := print_to w [msg_no_response; msg_no_data] |}).
Proof.
  intros Hgrid Hno.
  rewrite (display_grid_fetches L me w _ Hgrid (get_data_no_response L me w Hno)).
  cbn [self]. rewrite Hgrid.
  unfold emit, print_to. simpl. now rewrite <- app_assoc.
Qed.

Lemma display_grid_without_response_witness :
  no_usable_response {| _url := test_url; response := None; grid := None |} /\
  display_grid ascii_library
    {| self := {| _url := test_url; response := None; grid := None |};
       world := quiet |} =
    (inr tt,
     {| self := {| _url := test_url; response := None; grid := None |};
        world := {| stdout := [msg_no_response; msg_no_data]; requested := [] |} |}).
Proof.
  assert (H : no_usable_response {| _url := test_url; response := None; grid := None |})
    by (now left).
  split; [exact H|].
  exact (display_grid_without_response ascii_library
           {| _url := test_url; response := None; grid := None |} quiet eq_refl H).
Defined.

(** What [display_grid] leaves behind, in every case. *)
Lemma display_grid_frame
    (L : Library) (me : DecodeSecretMessage) (w : World) :
  exists (r : exn + unit) (lines : list str) (g : option pandas.DataFrame),
    display_grid L {| self := me; world := w |} =
      (r,
       {| self := {| _url := _url me; response := response me; grid := g |};
          world := print_to w lines |}).
Proof.
  destruct (grid me) as [df|] eqn:Hgrid.
  - destruct (display_grid_held_frame L me w df Hgrid) as (r & lines & ->).
    exists r, lines, (grid me). now destruct me.
  - destruct (get_data_frame L me w) as (l1 & g & Hget).
    rewrite (display_grid_fetches L me w _ Hgrid Hget). cbn [self grid].
    destruct g as [df|].
    + destruct (display_grid_held_frame L
                  {| _url := _url me; response := response me; grid := Some df |}
                  (print_to w l1) df eq_refl) as (r & l2 & ->).
      exists r, (l1 ++ l2), (Some df).
      unfold print_to. simpl. now rewrite app_assoc.
    + exists (inr tt), (l1 ++ [msg_no_data]), None.
      unfold emit, print_to. simpl. now rewrite app_assoc.
Qed.

(** X8. Whatever the instance holds and whether it returns or raises,
    [display_grid] sends no request and leaves the URL and the response of
    the instance as they are; what was printed before stays, lines are
    only added. *)
Theorem display_grid_sends_no_request
    (L : Library) (me : DecodeSecretMessage) (w : World) :
  exists (r : exn + unit) (lines : list str) (g : option pandas.DataFrame),
    display_grid L {| self := me; world := w |} =
      (r,
       {| self := {| _url := _url me; response := response me; grid := g |};
          world := {| stdout := stdout w ++ lines; requested := requested w |} |}).
Proof. apply display_grid_frame. Qed.

(* ================================================================= *)
(** ** Further properties: the grid *)

Section GridBounds.

(** [l[i]] reads position [i mod len(l)] when [-len(l) <= i < len(l)],
    and raises otherwise. *)
Lemma index_mod (n : nat) (i : Z) :
  index n i =
    if decide (- Z.of_nat n <= i < Z.of_nat n)
    then Some (Z.to_nat (i mod Z.of_nat n)) else None.
Proof.
  unfold index.
  destruct (0 <=? i) eqn:E0; destruct (i <? Z.of_nat n) eqn:E1; simpl;
    rewrite ?Z.leb_le, ?Z.leb_gt, ?Z.ltb_lt, ?Z.ltb_ge in *.
  - destruct (decide _) as [_|Hn]; [|lia]. now rewrite Z.mod_small by lia.
  - assert (Hlt : (i <? 0) = false) by (apply Z.ltb_ge; lia).
    rewrite Hlt, andb_false_r. destruct (decide _); [lia | reflexivity].
  - destruct (- Z.of_nat n <=? i) eqn:E2;
      rewrite ?Z.leb_le, ?Z.leb_gt in E2;
      (assert (Hlt : (i <? 0) = true) by (apply Z.ltb_lt; lia));
      rewrite Hlt; simpl.
    + destruct (decide _) as [_|Hn]; [|lia]. do 2 f_equal.
      apply Z.mod_unique with (q := -1); lia.
    + destruct (decide _); [lia | reflexivity].
  - lia.
Qed.

Lemma set_cell_inside (h w : nat) (g : Grid) (x y : Z) (c : str) :
  rect h w g ->
  - Z.of_nat h <= y < Z.of_nat h -> - Z.of_nat w <= x < Z.of_nat w ->
  exists row,
    g !! Z.to_nat (y mod Z.of_nat h) = Some row /\
    (Z.to_nat (x mod Z.of_nat w) < length row)%nat /\
    set_cell g x y c =
      inr (<[Z.to_nat (y mod Z.of_nat h) :=
               <[Z.to_nat (x mod Z.of_nat w) := c]> row]> g).
Proof.
  intros [Hlen Hrows] Hy Hx.
  assert (Hym : 0 <= y mod Z.of_nat h < Z.of_nat h) by (apply Z.mod_pos_bound; lia).
  assert (Hxm : 0 <= x mod Z.of_nat w < Z.of_nat w) by (apply Z.mod_pos_bound; lia).
  destruct (lookup_lt_is_Some_2 g (Z.to_nat (y mod Z.of_nat h))) as [row Hrow]; [lia|].
  assert (Hw : length row = w).
  { rewrite Forall_forall in Hrows. apply Hrows.
    eapply list_elem_of_lookup_2; eauto. }
  exists row. split; [assumption|]. split; [lia|].
  unfold set_cell. rewrite index_mod, Hlen.
  destruct (decide _) as [_|Hn]; [|lia]. rewrite Hrow.
  rewrite index_mod, Hw.
  destruct (decide _) as [_|Hn]; [reflexivity | lia].
Qed.

Lemma set_cell_outside (h w : nat) (g : Grid) (x y : Z) (c : str) :
  rect h w g ->
  ~ (- Z.of_nat h <= y < Z.of_nat h /\ - Z.of_nat w <= x < Z.of_nat w) ->
  exists msg, set_cell g x y c = inl (IndexError msg).
Proof.
  intros [Hlen Hrows] Hout. unfold set_cell. rewrite index_mod, Hlen.
  destruct (decide _) as [Hy|_]; [|eauto].
  destruct (g !! _) as [row|] eqn:Hrow; [|eauto].
  assert (Hw : length row = w).
  { rewrite Forall_forall in Hrows. apply Hrows.
    eapply list_elem_of_lookup_2; eauto. }
  rewrite index_mod, Hw.
  destruct (decide _) as [Hx|_]; [tauto | eauto].
Qed.

Lemma set_cell_keeps_shape (h w : nat) (g g' : Grid) (x y : Z) (c : str) :
  rect h w g -> set_cell g x y c = inr g' -> rect h w g'.
Proof.
  intros Hrect. unfold set_cell.
  destruct (index (length g) y) as [i|]; [|discriminate].
  destruct (g !! i) as [row|] eqn:Hrow; [|discriminate].
  destruct (index (length row) x) as [j|]; [|discriminate].
  intros [= <-]. now apply rect_set.
Qed.


Lemma fill_grid_keeps_shape (h w : nat) (df : pandas.DataFrame) :
  forall g g' : Grid, rect h w g -> fill_grid g df = inr g' -> rect h w g'.
Proof.
  induction df as [|[[x y] c] rest IH]; intros g g' Hrect; simpl.
  - now intros [= <-].
  - destruct (set_cell g x y c) as [e|g1] eqn:Hset; [discriminate|].
    apply IH. eapply set_cell_keeps_shape; eauto.
Qed.




End GridBounds.

(** X9. [grid[y][x] = char] on a grid of h rows of w cells succeeds
    exactly when -h <= y < h and -w <= x < w; it then writes the cell of
    row y mod h, column x mod w (a negative index counts from the end),
    touches no other cell and keeps the shape; otherwise it raises an
    IndexError. *)
Theorem set_cell_wraps_negative_indices
    (h w : nat) (g : Grid) (x y : Z) (c : str) :
  rect h w g ->
  (- Z.of_nat h <= y < Z.of_nat h /\ - Z.of_nat w <= x < Z.of_nat w ->
   exists g' : Grid,
     set_cell g x y c = inr g' /\ rect h w g' /\
     forall i j : nat,
       get_cell g' i j =
         if decide (Z.to_nat (y mod Z.of_nat h) = i /\
                    Z.to_nat (x mod Z.of_nat w) = j)
         then Some c else get_cell g i j) /\
  (~ (- Z.of_nat h <= y < Z.of_nat h /\ - Z.of_nat w <= x < Z.of_nat w) ->
   exists msg, set_cell g x y c = inl (IndexError msg)).
Proof.
  intros Hrect. split.
  - intros [Hy Hx].
    destruct (set_cell_inside h w g x y c Hrect Hy Hx) as (row & Hrow & Hj & Hset).
    eexists. split; [exact Hset|]. split; [now apply rect_set|].
    intros i j. now apply get_cell_set.
  - now apply set_cell_outside.
Qed.

Lemma set_cell_wraps_negative_indices_witness :
  rect 1 2 [[lit " "; lit " "]] /\
  set_cell [[lit " "; lit " "]] (-1) 0 (lit "Z") = inr [[lit " "; lit "Z"]].
Proof.
  assert (Hrect : rect 1 2 [[lit " "; lit " "]]).
  { split; [reflexivity|]. repeat constructor. }
  split; [exact Hrect|].
  destruct (proj1 (set_cell_wraps_negative_indices 1 2 [[lit " "; lit " "]]
                     (-1) 0 (lit "Z") Hrect)) as (g' & Hset & _).
  { simpl. lia. }
  rewrite Hset. vm_compute in Hset. injection Hset as <-. reflexivity.
Defined.

(** X10. The filling loop never changes the shape of the grid: when it
    ends without raising, the grid has the rows and columns it had. *)
Theorem fill_grid_preserves_shape
    (h w : nat) (df : pandas.DataFrame) (g g' : Grid) :
  rect h w g -> fill_grid g df = inr g' -> rect h w g'.
Proof. intros Hrect Hfill. eapply fill_grid_keeps_shape; eauto. Qed.

Lemma fill_grid_preserves_shape_witness :
  rect 1 2 [[lit " "; lit " "]] /\
  fill_grid [[lit " "; lit " "]] [(0, 0, lit "A"); (-1, 0, lit "B")]
    = inr [[lit "A"; lit "B"]] /\
  rect 1 2 [[lit "A"; lit "B"]].
Proof.
  assert (Hrect : rect 1 2 [[lit " "; lit " "]]).
  { split; [reflexivity|]. repeat constructor. }
  split; [exact Hrect|]. split; [reflexivity|].
  exact (fill_grid_preserves_shape 1 2 [(0, 0, lit "A"); (-1, 0, lit "B")]
           [[lit " "; lit " "]] [[lit "A"; lit "B"]] Hrect eq_refl).
Defined.

Section DisplaySteps.
Variable L : Library.







Lemma cols_nonempty (df : pandas.DataFrame) :
  df <> [] -> pandas.col_x df <> [] /\ pandas.col_y df <> [].
Proof. destruct df; [congruence|]. split; discriminate. Qed.

End DisplaySteps.





(* ================================================================= *)
(** ** Further properties: frames with distinct coordinates *)

Section Distinct.

Lemma last_at_some_in (df : pandas.DataFrame) (x y : Z) (c : str) :
  last_at df x y = Some c -> In (x, y, c) df.
Proof.
  induction df as [|[[x' y'] c'] rest IH]; simpl; [discriminate|].
  destruct (last_at rest x y) as [c''|].
  - intros [= ->]. right. now apply IH.
  - destruct (x' =? x) eqn:Ex; [|discriminate].
    destruct (y' =? y) eqn:Ey; [|discriminate].
    apply Z.eqb_eq in Ex, Ey. subst. intros [= ->]. now left.
Qed.

Lemma in_coords (df : pandas.DataFrame) (x y : Z) (c : str) :
  In (x, y, c) df -> In (x, y) (coords df).
Proof. intros H. unfold coords. apply in_map_iff. now exists (x, y, c). Qed.

Lemma last_at_unique (df : pandas.DataFrame) (x y : Z) (c : str) :
  List.NoDup (coords df) -> In (x, y, c) df -> last_at df x y = Some c.
Proof.
  induction df as [|[[x' y'] c'] rest IH]; simpl; [intros _ []|].
  intros Hnd Hin. inversion Hnd as [|? ? Hnotin Hnd']; subst.
  destruct Hin as [[= -> -> ->]|Hin].
  - destruct (last_at rest x y) as [c''|] eqn:E.
    + exfalso. apply Hnotin. eapply in_coords, last_at_some_in; eauto.
    + now rewrite !Z.eqb_refl.
  - now rewrite (IH Hnd' Hin).
Qed.

Lemma max_coord_perm (l l' : list Z) :
  Permutation l l' -> max_coord l = max_coord l'.
Proof.
  unfold max_coord. induction 1; simpl; lia.
Qed.

Lemma cell_at_perm (df df' : pandas.DataFrame) (x y : Z) :
  Permutation df df' -> List.NoDup (coords df) ->
  cell_at df x y = cell_at df' x y.
Proof.
  intros Hperm Hnd.
  assert (Hnd' : List.NoDup (coords df')).
  { eapply Permutation_NoDup; [|exact Hnd]. now apply Permutation_map. }
  unfold cell_at.
  destruct (last_at df x y) as [c|] eqn:E.
  - apply last_at_some_in in E.
    now rewrite (last_at_unique df' x y c Hnd' (Permutation_in _ Hperm E)).
  - destruct (last_at df' x y) as [c'|] eqn:E'; [|reflexivity].
    apply last_at_some_in in E'.
    apply (Permutation_in _ (Permutation_sym Hperm)) in E'.
    rewrite (last_at_unique df x y c' Hnd E') in E. discriminate.
Qed.

Lemma rendering_perm (df df' : pandas.DataFrame) :
  Permutation df df' -> List.NoDup (coords df) ->
  rendering df = rendering df'.
Proof.
  intros Hperm Hnd. unfold rendering.
  rewrite (max_coord_perm (pandas.col_x df) (pandas.col_x df'))
    by (now apply Permutation_map).
  rewrite (max_coord_perm (pandas.col_y df) (pandas.col_y df'))
    by (now apply Permutation_map).
  apply List.map_ext. intros y. f_equal.
  apply List.map_ext. intros x. now apply cell_at_perm.
Qed.

Lemma nonneg_perm (df df' : pandas.DataFrame) :
  Permutation df df' -> nonneg df -> nonneg df'.
Proof. unfold nonneg. intros Hperm. now rewrite Hperm. Qed.

Lemma below_perm (df df' : pandas.DataFrame) :
  Permutation df df' -> below_int64_max df -> below_int64_max df'.
Proof. unfold below_int64_max. intros Hperm. now rewrite Hperm. Qed.

Lemma cell_at_one_character (df : pandas.DataFrame) (x y : Z) :
  Forall (fun t => length (snd t) = 1%nat) df ->
  length (cell_at df x y) = 1%nat.
Proof.
  intros Hone. unfold cell_at.
  destruct (last_at df x y) as [c|] eqn:E; [|reflexivity].
  apply last_at_some_in in E. rewrite Forall_forall in Hone.
  apply list_elem_of_In, Hone in E. exact E.
Qed.

Lemma join_length_one {A} (f : A -> str) (l : list A) :
  (forall a, length (f a) = 1%nat) ->
  length (join (List.map f l)) = length l.
Proof.
  intros Hone. unfold join.
  induction l as [|a l IH]; [reflexivity|].
  simpl. rewrite length_app, Hone, IH. reflexivity.
Qed.

End Distinct.

(** X13. On a frame with a row, whose coordinates are not negative and
    below 2**63 - 1, and none of them named twice, [display_grid] fills a
    grid that holds the character of every triple at row y, column x, and
    a space in every other cell, and prints the rows of that grid. *)
Theorem distinct_triples_are_all_placed
    (L : Library) (me : DecodeSecretMessage) (w : World) (df : pandas.DataFrame) :
  grid me = Some df ->
  df <> [] -> nonneg df -> below_int64_max df -> List.NoDup (coords df) ->
  exists g0 g : Grid,
    new_grid (pandas.max (pandas.col_x df)) (pandas.max (pandas.col_y df)) = inr g0 /\
    fill_grid g0 df = inr g /\
    (forall x y c, In (x, y, c) df ->
       get_cell g (Z.to_nat y) (Z.to_nat x) = Some c) /\
    (forall i j : nat,
       (i < length g)%nat -> (j < Z.to_nat (max_coord (pandas.col_x df) + 1))%nat ->
       (forall c, ~ In (Z.of_nat j, Z.of_nat i, c) df) ->
       get_cell g i j = Some (lit " ")) /\
    display_grid L {| self := me; world := w |} =
      (inr tt, {| self := me; world := print_to w (List.map join (rev g)) |}).
Proof.
  intros Hgrid Hne Hnn Hbelow Hnd.
  destruct (build_grid_spec df Hne Hnn Hbelow) as (g & Hnew & Hfill & Hrect & Hcells).
  eexists. exists g. split; [exact Hnew|]. split; [exact Hfill|].
  split; [|split].
  - intros x y c Hin.
    pose proof (nonneg_in_bounds df Hnn) as Hb. rewrite Forall_forall in Hb.
    pose proof (Hb _ (proj2 (list_elem_of_In _ _) Hin)) as Hxy. simpl in Hxy.
    rewrite Hcells by lia. rewrite !Z2Nat.id by lia.
    unfold cell_at. now rewrite (last_at_unique df x y c Hnd Hin).
  - intros i j Hi Hj Hno. destruct Hrect as [Hlen _].
    rewrite Hcells by lia. unfold cell_at. now rewrite last_at_none.
  - now apply (display_grid_prints_built_grid L me w df g).
Qed.

Lemma distinct_triples_are_all_placed_witness :
  scenario_df <> [] /\ nonneg scenario_df /\ below_int64_max scenario_df /\
  List.NoDup (coords scenario_df) /\
  exists g : Grid,
    fill_grid (replicate 2 (replicate 2 (lit " "))) scenario_df = inr g /\
    get_cell g 0 1 = Some (lit "B") /\
    display_grid ascii_library {| self := scenario_instance; world := quiet |} =
      (inr tt,
       {| self := scenario_instance;
          world := print_to quiet (List.map join (rev g)) |}).
Proof.
  assert (Hne : scenario_df <> []) by discriminate.
  assert (Hnn : nonneg scenario_df).
  { unfold scenario_df. repeat constructor; simpl; lia. }
  assert (Hbelow : below_int64_max scenario_df).
  { unfold scenario_df. repeat constructor. }
  assert (Hnd : List.NoDup (coords scenario_df)).
  { unfold scenario_df, coords. simpl.
    repeat constructor; simpl; intros H;
      repeat destruct H as [H|H]; try discriminate H; exact H. }
  split; [exact Hne|]. split; [exact Hnn|]. split; [exact Hbelow|].
  split; [exact Hnd|].
  destruct (distinct_triples_are_all_placed ascii_library scenario_instance quiet
              scenario_df eq_refl Hne Hnn Hbelow Hnd)
    as (g0 & g & Hnew & Hfill & Hplaced & _ & Hd).
  vm_compute in Hnew. injection Hnew as <-.
  exists g. split; [exact Hfill|]. split; [|exact Hd].
  apply (Hplaced 1 0 (lit "B")). right. now left.
Defined.

(** X14. When no coordinate is named twice (none negative, all below
    2**63 - 1), the order of the triples does not matter: [display_grid]
    prints the same lines for a frame and for any reordering of it. *)
Theorem display_grid_ignores_order_of_distinct_triples
    (L : Library) (me : DecodeSecretMessage) (w : World)
    (df df' : pandas.DataFrame) :
  df <> [] -> nonneg df -> below_int64_max df ->
  List.NoDup (coords df) -> Permutation df df' ->
  exists lines : list str,
    display_grid L {| self := with_grid me df; world := w |} =
      (inr tt, {| self := with_grid me df; world := print_to w lines |}) /\
    display_grid L {| self := with_grid me df'; world := w |} =
      (inr tt, {| self := with_grid me df'; world := print_to w lines |}).
Proof.
  intros Hne Hnn Hbelow Hnd Hperm.
  exists (rendering df). split.
  - now apply display_grid_renders.
  - rewrite (rendering_perm df df' Hperm Hnd).
    apply display_grid_renders; [reflexivity| | |].
    + intros ->. apply Permutation_nil_r in Hperm. contradiction.
    + now apply (nonneg_perm df).
    + now apply (below_perm df).
Qed.

Lemma display_grid_ignores_order_of_distinct_triples_witness :
  scenario_df <> [] /\ nonneg scenario_df /\ below_int64_max scenario_df /\
  List.NoDup (coords scenario_df) /\
  Permutation scenario_df (rev scenario_df) /\
  display_grid ascii_library
    {| self := with_grid scenario_instance (rev scenario_df); world := quiet |} =
    (inr tt,
     {| self := with_grid scenario_instance (rev scenario_df);
        world := {| stdout := [lit "C "; lit "AB"]; requested := [] |} |}).
Proof.
  assert (Hne : scenario_df <> []) by discriminate.
  assert (Hnn : nonneg scenario_df).
  { unfold scenario_df. repeat constructor; simpl; lia. }
  assert (Hnd : List.NoDup (coords scenario_df)).
  { unfold scenario_df, coords. simpl.
    repeat constructor; simpl; intros H;
      repeat destruct H as [H|H]; try discriminate H; exact H. }
  assert (Hperm : Permutation scenario_df (rev scenario_df))
    by apply Permutation_rev.
  assert (Hbelow : below_int64_max scenario_df).
  { unfold scenario_df. repeat constructor. }
  split; [exact Hne|]. split; [exact Hnn|]. split; [exact Hbelow|].
  split; [exact Hnd|]. split; [exact Hperm|].
  destruct (display_grid_ignores_order_of_distinct_triples ascii_library
              scenario_instance quiet scenario_df (rev scenario_df)
              Hne Hnn Hbelow Hnd Hperm) as (lines & H1 & H2).
  vm_compute in H1. injection H1 as <-. exact H2.
Defined.

(** X15. When every character of the frame is one code point long (no
    coordinate negative, all below 2**63 - 1), every printed line is
    max_x + 1 characters long: the output is a rectangle. *)
Theorem display_grid_prints_a_rectangle
    (L : Library) (me : DecodeSecretMessage) (w : World) (df : pandas.DataFrame) :
  grid me = Some df -> df <> [] -> nonneg df -> below_int64_max df ->
  Forall (fun t => length (snd t) = 1%nat) df ->
  exists (max_x : Z) (lines : list str),
    pandas.max (pandas.col_x df) = Int max_x /\
    display_grid L {| self := me; world := w |} =
      (inr tt, {| self := me; world := print_to w lines |}) /\
    Forall (fun line => length line = Z.to_nat (max_x + 1)) lines.
Proof.
  intros Hgrid Hne Hnn Hbelow Hone.
  destruct (nonneg_cols df Hnn) as [Hcx _].
  destruct (cols_nonempty df Hne) as [Hx _].
  exists (max_coord (pandas.col_x df)), (rendering df).
  split; [now apply pandas_max_nonneg|].
  split; [now apply display_grid_renders|].
  unfold rendering. rewrite Forall_forall. intros line Hin.
  apply list_elem_of_In, in_map_iff in Hin. destruct Hin as (y & <- & _).
  rewrite join_length_one by (intros x; now apply cell_at_one_character).
  now rewrite length_seqZ.
Qed.

Lemma display_grid_prints_a_rectangle_witness :
  scenario_df <> [] /\ nonneg scenario_df /\ below_int64_max scenario_df /\
  Forall (fun t : Z * Z * str => length (snd t) = 1%nat) scenario_df /\
  exists lines : list str,
    display_grid ascii_library {| self := scenario_instance; world := quiet |} =
      (inr tt, {| self := scenario_instance; world := print_to quiet lines |}) /\
    Forall (fun line => length line = 2%nat) lines.
Proof.
  assert (Hne : scenario_df <> []) by discriminate.
  assert (Hnn : nonneg scenario_df).
  { unfold scenario_df. repeat constructor; simpl; lia. }
  assert (Hone : Forall (fun t : Z * Z * str => length (snd t) = 1%nat) scenario_df).
  { unfold scenario_df. repeat constructor. }
  assert (Hbelow : below_int64_max scenario_df).
  { unfold scenario_df. repeat constructor. }
  split; [exact Hne|]. split; [exact Hnn|]. split; [exact Hbelow|].
  split; [exact Hone|].
  destruct (display_grid_prints_a_rectangle ascii_library scenario_instance quiet
              scenario_df eq_refl Hne Hnn Hbelow Hone)
    as (mx & lines & Hmx & Hd & Hlen).
  vm_compute in Hmx. injection Hmx as <-.
  exists lines. split; [exact Hd | exact Hlen].
Defined.

(* ================================================================= *)
(** ** Further properties: the setter and [Main] *)

Section MainFacts.
Variable L : Library.
Variable net : requests.Network.

Lemma url_setter_returns (v : value) (u : str) :
  url_setter L v = inr u <->
  v = VStr u /\ isspace u = false /\
  uses_https L u /\ targets_document_host L u.
Proof.
  unfold uses_https, targets_document_host. split.
  - destruct v as [| | | |s]; simpl; try discriminate.
    destruct (isspace s) eqn:Esp; [discriminate|].
    destruct (urllib.urlparse L s) as [e|p] eqn:Ep; [discriminate|].
    destruct (bool_decide (urllib.scheme p = lit "https")) eqn:Es;
      [|discriminate].
    destruct (bool_decide (urllib.netloc p = lit "docs.google.com")) eqn:En;
      [|discriminate].
    apply bool_decide_eq_true in Es, En. simpl. intros [= <-].
    rewrite Ep. eauto 10.
  - intros (-> & Hsp & (p & Hp & Hs) & (p' & Hp' & Hn)). simpl.
    rewrite Hsp, Hp. rewrite Hp in Hp'. injection Hp' as <-.
    rewrite !bool_decide_eq_true_2 by assumption. reflexivity.
Qed.

(** What [verify_public_url] leaves behind, in every case. *)
Lemma verify_public_url_frame (me : DecodeSecretMessage) (w : World) :
  exists (b : bool) (me' : DecodeSecretMessage) (lines : list str),
    verify_public_url net {| self := me; world := w |} =
      (inr b,
       {| self := me';
          world := {| stdout := stdout w ++ lines;
                      requested := requested w ++ [_url me] |} |}).
Proof.
  destruct (net (_url me)) as [e|r] eqn:Hnet.
  - exists false, me, [lit "Error accessing the URL: " ++ e].
    now apply verify_public_url_raises.
  - destruct (requests.raise_for_status r) as [e|] eqn:Hst.
    + exists false, (with_response me r), [lit "Error accessing the URL: " ++ e].
      now apply verify_public_url_error_status.
    + exists true, (with_response me r), [].
      rewrite (verify_public_url_returns net me w r Hnet Hst).
      now rewrite app_nil_r.
Qed.

(** The [try] block of [Main] sends one GET and only adds lines. *)
Lemma Main_try_frame (me : DecodeSecretMessage) (w : World) :
  exists (r : exn + unit) (me' : DecodeSecretMessage) (lines : list str),
    Main_try L net {| self := me; world := w |} =
      (r,
       {| self := me';
          world := {| stdout := stdout w ++ lines;
                      requested := requested w ++ [_url me] |} |}).
Proof.
  destruct (verify_public_url_frame me w) as (b & me1 & l1 & Hver).
  unfold Main_try. rewrite (bind_returns _ _ _ _ _ Hver).
  destruct b; cbn [negb].
  - rewrite (bind_returns (mret tt) _ _ _ tt eq_refl).
    destruct (get_data_frame L me1
                {| stdout := stdout w ++ l1; requested := requested w ++ [_url me] |})
      as (l2 & g & Hget).
    rewrite (bind_returns _ _ _ _ _ Hget).
    destruct (display_grid_frame L
                {| _url := _url me1; response := response me1; grid := g |}
                (print_to {| stdout := stdout w ++ l1;
                             requested := requested w ++ [_url me] |} l2))
      as (r & l3 & g' & ->).
    eexists r, _, (l1 ++ l2 ++ l3).
    unfold print_to. simpl. now rewrite !app_assoc.
  - eexists (inl _), me1, l1. reflexivity.
Qed.

(** After the parse, [Main] prints the frame that [get_data] stored. *)
Lemma Main_renders
    (v : value) (me : DecodeSecretMessage) (r : requests.Response) (w : World)
    (table : bs4.Table) :
  __init__ L v = inr me ->
  net (_url me) = requests.Returns r ->
  requests.ok r = true ->
  bs4.find_table (requests.text r) = Some table ->
  parsed_triples L (tail table) <> [] -> nonneg (parsed_triples L (tail table)) ->
  below_int64_max (parsed_triples L (tail table)) ->
  Main_with L net v w =
    (inr tt,
     {| stdout := stdout w ++ diagnostics L (tail table)
                    ++ rendering (parsed_triples L (tail table));
        requested := requested w ++ [_url me] |}).
Proof.
  intros Hinit Hnet Hok Htable Hne Hnn Hbelow.
  unfold Main_with, Main_try. rewrite Hinit.
  rewrite (bind_returns _ _ _ _ _
             (verify_public_url_returns net me w r Hnet (ok_no_error r Hok))).
  cbn [negb].
  rewrite (bind_returns (mret tt) _ _ _ tt eq_refl).
  rewrite (bind_returns _ _ _ _ _
             (get_data_spec L (with_response me r) _ r table eq_refl Hok Htable)).
  rewrite (display_grid_renders L
             {| _url := _url (with_response me r);
                response := response (with_response me r);
                grid := Some (parsed_triples L (tail table)) |}
             _ (parsed_triples L (tail table)) eq_refl Hne Hnn Hbelow).
  unfold print_to. simpl. now rewrite <- app_assoc.
Qed.

End MainFacts.

(** X16. The setter of [url] stores a value exactly when it is a string
    that is not all whitespace, whose scheme is https and whose network
    location is docs.google.com; it stores the string as given. *)
Theorem url_setter_accepts_exactly (L : Library) (v : value) (u : str) :
  url_setter L v = inr u <->
  v = VStr u /\ isspace u = false /\
  uses_https L u /\ targets_document_host L u.
Proof. apply url_setter_returns. Qed.

(** X17. The whole pipeline: for a URL the constructor accepts, a
    response with a usable status and a first table that parses to a frame
    with a row (coordinates not negative and below 2**63 - 1), [Main]
    sends one GET, prints the diagnostics of the rows that did not parse,
    then the rendering, and ends normally. *)
Theorem Main_prints_the_decoded_grid
    (L : Library) (net : requests.Network) (v : value)
    (me : DecodeSecretMessage) (r : requests.Response) (w : World)
    (header : bs4.Row) (rows : bs4.Table) (others : bs4.Soup) :
  __init__ L v = inr me ->
  net (_url me) = requests.Returns r ->
  requests.ok r = true ->
  requests.text r = (header :: rows) :: others ->
  parsed_triples L rows <> [] -> nonneg (parsed_triples L rows) ->
  below_int64_max (parsed_triples L rows) ->
  Main_with L net v w =
    (inr tt,
     {| stdout := stdout w ++ diagnostics L rows ++ rendering (parsed_triples L rows);
        requested := requested w ++ [_url me] |}).
Proof.
  intros Hinit Hnet Hok Htext Hne Hnn Hbelow.
  apply (Main_renders L net v me r w (header :: rows) Hinit Hnet Hok);
    [now rewrite Htext | assumption | assumption | assumption].
Qed.

Lemma Main_prints_the_decoded_grid_witness :
  requests.ok scenario_response = true /\
  parsed_triples ascii_library (tail scenario_table) <> [] /\
  nonneg (parsed_triples ascii_library (tail scenario_table)) /\
  below_int64_max (parsed_triples ascii_library (tail scenario_table)) /\
  Main ascii_library (fun _ => requests.Returns scenario_response) quiet =
    (inr tt,
     {| stdout := [msg_row_error; lit "C "; lit "AB"];
        requested := [test_url] |}).
Proof.
  assert (Hne : parsed_triples ascii_library (tail scenario_table) <> [])
    by discriminate.
  assert (Hnn : nonneg (parsed_triples ascii_library (tail scenario_table))).
  { vm_compute. repeat constructor; discriminate. }
  assert (Hbelow : below_int64_max
                     (parsed_triples ascii_library (tail scenario_table))).
  { change (parsed_triples ascii_library (tail scenario_table)) with scenario_df.
    unfold scenario_df. repeat constructor. }
  split; [reflexivity|]. split; [exact Hne|]. split; [exact Hnn|].
  split; [exact Hbelow|].
  exact (Main_prints_the_decoded_grid ascii_library
           (fun _ => requests.Returns scenario_response) (VStr test_url)
           {| _url := test_url; response := None; grid := None |}
           scenario_response quiet _ _ [] eq_refl eq_refl eq_refl eq_refl
           Hne Hnn Hbelow).
Defined.

(** X18. Once the constructor has accepted the URL, no exception leaves
    [Main], whatever the network does and whatever the document holds:
    [Main] ends normally, has sent exactly one GET, to the URL, and has
    only added lines to the output. *)
Theorem Main_ends_normally_after_one_request
    (L : Library) (net : requests.Network) (v : value)
    (me : DecodeSecretMessage) (w : World) :
  __init__ L v = inr me ->
  exists lines : list str,
    Main_with L net v w =
      (inr tt,
       {| stdout := stdout w ++ lines;
          requested := requested w ++ [_url me] |}).
Proof.
  intros Hinit. unfold Main_with. rewrite Hinit.
  destruct (Main_try_frame L net me w) as (r & me' & lines & ->).
  destruct r as [e|[]].
  - destruct e as [m|m|m].
    + exists (lines ++ [msg_unexpected; lit "Details: " ++ m]).
      unfold print_to. simpl. now rewrite app_assoc.
    + exists (lines ++ [lit "Error: " ++ m; msg_hint]).
      unfold print_to. simpl. now rewrite app_assoc.
    + exists (lines ++ [msg_unexpected; lit "Details: " ++ m]).
      unfold print_to. simpl. now rewrite app_assoc.
  - exists lines. reflexivity.
Qed.

Lemma Main_ends_normally_after_one_request_witness :
  __init__ ascii_library (VStr test_url) =
    inr {| _url := test_url; response := None; grid := None |} /\
  exists lines : list str,
    Main ascii_library no_network quiet =
      (inr tt, {| stdout := lines; requested := [test_url] |}).
Proof.
  split; [reflexivity|].
  exact (Main_ends_normally_after_one_request ascii_library no_network
           (VStr test_url) {| _url := test_url; response := None; grid := None |}
           quiet eq_refl).
Defined.
